(** * Agent-Network-Expander: the two analyzer scripts

    A shallow embedding of [scripts/analyze_network_iterative.py] and
    [scripts/analyze_network_local.py].

    - Python [str] is modelled by [string]; the character classes and case
      maps are Python's on ASCII text (code points below 128).
    - Python [int] is [Z]; list lengths and loop counters are [nat].
    - [pathlib] paths are pure POSIX paths: a root flag and the list of parts.
    - The file system is a tree of nodes hanging from [/]; it has no symbolic
      links and does not change while a script reads it.  What a script
      writes is kept beside the tree: the scripts create their [findings]
      directory and write below it, and the model takes these [mkdir] and
      [open(..., 'w')] calls to succeed, as they do in a working directory
      that holds no [findings] entry yet.
    - A call either returns, raises an exception of class [Exception],
      leaves through [sys.exit], or never returns (it blocks in a system
      call); [try ... except Exception] catches the second and lets the
      others pass.
    - The console, the clock, the terminal input and the Ollama backend are
      the fields of a [World] threaded through the stateful code.  [print]
      calls only write to the console; the model keeps the one the review
      protocol is about ([present_suggestion]) as an event and leaves the
      others out. *)

From Stdlib Require Import List String Ascii ZArith Bool Arith Lia DecimalString.
Import ListNotations.

#[local] Set Warnings "-register-all".
#[local] Open Scope string_scope.
#[local] Open Scope list_scope.

(* ================================================================= *)
(** ** Python strings *)

Module PyStr.

Definition nl : string := String "010"%char EmptyString.

Definition code (c : ascii) : nat := nat_of_ascii c.

Definition between (lo hi n : nat) : bool := (lo <=? n)%nat && (n <=? hi)%nat.

(** [str.isspace] on one ASCII character: TAB..CR, FS..US and the blank. *)
Definition isspace (c : ascii) : bool :=
  between 9 13 (code c) || between 28 32 (code c).

Definition isupper (c : ascii) : bool := between 65 90 (code c).
Definition islower (c : ascii) : bool := between 97 122 (code c).
Definition isdigit (c : ascii) : bool := between 48 57 (code c).

(** [c.isalnum()] *)
Definition isalnum (c : ascii) : bool := isdigit c || isupper c || islower c.

Definition lower_char (c : ascii) : ascii :=
  if isupper c then ascii_of_nat (code c + 32) else c.
Definition upper_char (c : ascii) : ascii :=
  if islower c then ascii_of_nat (code c - 32) else c.

Fixpoint map_chars (f : ascii -> ascii) (s : string) : string :=
  match s with
  | EmptyString => EmptyString
  | String c s' => String (f c) (map_chars f s')
  end.

Fixpoint filter_chars (f : ascii -> bool) (s : string) : string :=
  match s with
  | EmptyString => EmptyString
  | String c s' => if f c then String c (filter_chars f s') else filter_chars f s'
  end.

Fixpoint all_chars (f : ascii -> bool) (s : string) : bool :=
  match s with
  | EmptyString => true
  | String c s' => f c && all_chars f s'
  end.


(** [s.lower()], [s.upper()], [s.capitalize()] *)
Definition lower (s : string) : string := map_chars lower_char s.
Definition upper (s : string) : string := map_chars upper_char s.
Definition capitalize (s : string) : string :=
  match s with
  | EmptyString => EmptyString
  | String c s' => String (upper_char c) (lower s')
  end.

(** [s.replace(a, b)] for one-character [a] and [b]. *)
Definition replace (a b : ascii) (s : string) : string :=
  map_chars (fun c => if Ascii.eqb c a then b else c) s.

Fixpoint rev_acc (s acc : string) : string :=
  match s with
  | EmptyString => acc
  | String c s' => rev_acc s' (String c acc)
  end.
Definition rev (s : string) : string := rev_acc s EmptyString.

(** [s.lstrip(chars)] with the set of characters given as a predicate. *)
Fixpoint lstrip_by (f : ascii -> bool) (s : string) : string :=
  match s with
  | EmptyString => EmptyString
  | String c s' => if f c then lstrip_by f s' else s
  end.
Definition rstrip_by (f : ascii -> bool) (s : string) : string :=
  rev (lstrip_by f (rev s)).

(** [s.strip()] *)
Definition strip (s : string) : string := rstrip_by isspace (lstrip_by isspace s).

(** [s.lstrip('.')] *)
Definition lstrip_dot (s : string) : string := lstrip_by (Ascii.eqb ".") s.

(** [s.find(c)] and [s.rfind(c)] for a one-character [c]: the index of the
    first (last) occurrence, [-1] when there is none. *)
Fixpoint find_from (c : ascii) (s : string) (i : Z) : Z :=
  match s with
  | EmptyString => (-1)%Z
  | String d s' => if Ascii.eqb d c then i else find_from c s' (i + 1)%Z
  end.
Definition find (c : ascii) (s : string) : Z := find_from c s 0%Z.

Fixpoint rfind_from (c : ascii) (s : string) (i : Z) (last : Z) : Z :=
  match s with
  | EmptyString => last
  | String d s' => rfind_from c s' (i + 1)%Z (if Ascii.eqb d c then i else last)
  end.
Definition rfind (c : ascii) (s : string) : Z := rfind_from c s 0%Z (-1)%Z.

(** [s[start:stop]] for [0 <= start]; a [stop] past the end is clipped. *)
Definition slice (s : string) (start stop : Z) : string :=
  substring (Z.to_nat start) (Z.to_nat (stop - start)) s.

(** [s[:n]] *)
Definition take (n : nat) (s : string) : string := substring 0 n s.

(** [sub in s] *)
Fixpoint contains (sub s : string) : bool :=
  prefix sub s ||
  match s with
  | EmptyString => false
  | String _ s' => contains sub s'
  end.

(** [s.split(sep)] for a non-empty [sep]: the pieces between the
    occurrences of [sep], scanned from the left without overlap.  [skip]
    counts the characters of an occurrence still to pass over and [cur]
    holds the current piece, last character first. *)
Fixpoint split_go (sep s : string) (skip : nat) (cur : string) : list string :=
  match s with
  | EmptyString => [rev cur]
  | String c s' =>
      match skip with
      | S k => split_go sep s' k cur
      | O =>
          if prefix sep s
          then rev cur :: split_go sep s' (String.length sep - 1) EmptyString
          else split_go sep s' 0 (String c cur)
      end
  end.
Definition split (sep s : string) : list string := split_go sep s 0 EmptyString.

(** [sep.join(items)] *)
Definition join (sep : string) (items : list string) : string :=
  String.concat sep items.

(** [str(n)] for an [int] and for a length. *)
Definition str_int (z : Z) : string := NilZero.string_of_int (Z.to_int z).
Definition str_nat (n : nat) : string := NilZero.string_of_uint (Nat.to_uint n).

End PyStr.

(* ================================================================= *)
(** ** Exceptions and outcomes *)

Inductive exc_class : Type :=
| OSError | ValueError | KeyError | TypeError | AttributeError
| EOFError | JSONDecodeError | ConnectionError | RuntimeError
| UnboundLocalError.

(** An exception object: its class and [str(e)]. *)
Record exc : Type := Exc { exc_kind : exc_class; exc_str : string }.

(** How a call ends, if it does: [Hang] is the call that never returns. *)
Inductive outcome (A : Type) : Type :=
| Return (a : A)
| Raise (e : exc)
| SysExit (status : Z)
| Hang.
Arguments Return {A} a.
Arguments Raise {A} e.
Arguments SysExit {A} status.
Arguments Hang {A}.

Definition obind {A B} (m : outcome A) (k : A -> outcome B) : outcome B :=
  match m with
  | Return a => k a
  | Raise e => Raise e
  | SysExit n => SysExit n
  | Hang => Hang
  end.

(** [try: body / except Exception as e: handler e] *)
Definition try_except {A} (body : outcome A) (handler : exc -> outcome A) : outcome A :=
  match body with
  | Raise e => handler e
  | other => other
  end.

Declare Scope outcome_scope.
Delimit Scope outcome_scope with outcome.
Notation "x <- m ;; k" := (obind m (fun x => k))
  (at level 61, m at next level, right associativity) : outcome_scope.

(* ================================================================= *)
(** ** Paths and the file system *)

Module PathLib.

(** A pure POSIX path. *)
Record Path : Type := MkPath { root : bool; parts : list string }.

Definition Path_eq_dec (p q : Path) : {p = q} + {p <> q}.
Proof.
  decide equality.
  - apply (list_eq_dec string_dec).
  - apply Bool.bool_dec.
Defined.

Definition path_eqb (p q : Path) : bool := if Path_eq_dec p q then true else false.

(** The parts of a path string: split at [/], empty parts and [.] dropped. *)
Definition parse_parts (s : string) : list string :=
  filter (fun p => negb (p =? "") && negb (p =? ".")) (PyStr.split "/" s).

(** [Path(s)] *)
Definition of_string (s : string) : Path :=
  {| root := prefix "/" s; parts := parse_parts s |}.

(** [p / s] *)
Definition joinpath (p : Path) (s : string) : Path :=
  if prefix "/" s then of_string s
  else {| root := root p; parts := parts p ++ parse_parts s |}.

(** The path of a directory entry (pathlib's [_make_child_relpath]). *)
Definition child (p : Path) (name : string) : Path :=
  {| root := root p; parts := parts p ++ [name] |}.

(** [str(p)] *)
Definition to_string (p : Path) : string :=
  match root p, parts p with
  | false, [] => "."
  | false, ps => PyStr.join "/" ps
  | true, ps => "/" ++ PyStr.join "/" ps
  end.

(** [p.name] *)
Definition name (p : Path) : string := last (parts p) "".

(** [p.suffix]: from the last dot of the name on, when that dot is
    neither the first nor the last character. *)
Definition suffix (p : Path) : string :=
  let nm := name p in
  let i := PyStr.rfind "." nm in
  if (0 <? i)%Z && (i <? Z.of_nat (String.length nm) - 1)%Z
  then PyStr.slice nm i (Z.of_nat (String.length nm))
  else "".

Fixpoint is_prefix (xs ys : list string) : bool :=
  match xs, ys with
  | [], _ => true
  | x :: xs', y :: ys' => (x =? y) && is_prefix xs' ys'
  | _ :: _, [] => false
  end.

(** [p.relative_to(other)]: [ValueError] unless both are rooted or both are
    not and the parts of [other] start those of [p]. *)
Definition relative_to (p other : Path) : outcome Path :=
  if Bool.eqb (root p) (root other) && is_prefix (parts other) (parts p)
  then Return {| root := false; parts := skipn (List.length (parts other)) (parts p) |}
  else Raise (Exc ValueError
                ("'" ++ to_string p ++ "' is not in the subpath of '"
                     ++ to_string other ++ "'")).

(** A node of the file system: a regular file with its size and its text
    ([None] when it cannot be read), a directory with its entries in
    [scandir] order, a FIFO that no process has opened for writing, or
    something else that is neither file nor directory and cannot be opened
    (a socket). *)
Inductive node : Type :=
| File (nm : string) (st_size : Z) (text : option string)
| Dir (nm : string) (st_size : Z) (entries : list node)
| Special (nm : string) (st_size : Z)
| Fifo (nm : string) (st_size : Z).

Definition node_name (n : node) : string :=
  match n with File nm _ _ | Dir nm _ _ | Special nm _ | Fifo nm _ => nm end.
Definition node_size (n : node) : Z :=
  match n with File _ sz _ | Dir _ sz _ | Special _ sz | Fifo _ sz => sz end.
Definition node_is_dir (n : node) : bool :=
  match n with Dir _ _ _ => true | _ => false end.
Definition node_is_file (n : node) : bool :=
  match n with File _ _ _ => true | _ => false end.
Definition node_entries (n : node) : list node :=
  match n with Dir _ _ es => es | _ => [] end.

Definition find_entry (nm : string) (es : list node) : option node :=
  List.find (fun e => node_name e =? nm) es.

Fixpoint lookup (n : node) (ps : list string) : option node :=
  match ps with
  | [] => Some n
  | p :: ps' =>
      match find_entry p (node_entries n) with
      | Some c => lookup c ps'
      | None => None
      end
  end.

(** The file system: the entries of [/] and the parts of the working
    directory below [/]. *)
Record FS : Type := MkFS { fs_entries : list node; fs_cwd : list string }.

Definition fs_root (fs : FS) : node := Dir "" 4096 (fs_entries fs).

(** [Path.cwd()]: always rooted. *)
Definition cwd (fs : FS) : Path := {| root := true; parts := fs_cwd fs |}.

(** [p.absolute()] *)
Definition absolute (fs : FS) (p : Path) : Path :=
  if root p then p else {| root := true; parts := parts (cwd fs) ++ parts p |}.

Definition resolve (fs : FS) (p : Path) : option node :=
  lookup (fs_root fs) (parts (absolute fs p)).

Definition exists_ (fs : FS) (p : Path) : bool :=
  match resolve fs p with Some _ => true | None => false end.
Definition is_dir (fs : FS) (p : Path) : bool :=
  match resolve fs p with Some n => node_is_dir n | None => false end.
Definition is_file (fs : FS) (p : Path) : bool :=
  match resolve fs p with Some n => node_is_file n | None => false end.
(** [p.is_fifo()] *)
Definition is_fifo (fs : FS) (p : Path) : bool :=
  match resolve fs p with Some (Fifo _ _) => true | _ => false end.

Definition os_error (errno : string) (p : Path) : exc :=
  Exc OSError (errno ++ ": '" ++ to_string p ++ "'").

(** [p.stat().st_size] *)
Definition stat_size (fs : FS) (p : Path) : outcome Z :=
  match resolve fs p with
  | Some n => Return (node_size n)
  | None => Raise (os_error "[Errno 2] No such file or directory" p)
  end.

(** [p.read_text(encoding='utf-8', errors='ignore')]: [open] waits for a
    writer on a FIFO, and none comes. *)
Definition read_text (fs : FS) (p : Path) : outcome string :=
  match resolve fs p with
  | Some (File _ _ (Some t)) => Return t
  | Some (File _ _ None) => Raise (os_error "[Errno 13] Permission denied" p)
  | Some (Dir _ _ _) => Raise (os_error "[Errno 21] Is a directory" p)
  | Some (Special _ _) => Raise (os_error "[Errno 6] No such device or address" p)
  | Some (Fifo _ _) => Hang
  | None => Raise (os_error "[Errno 2] No such file or directory" p)
  end.

(** *** Globbing

    [fnmatch] for the pattern language the scripts use: [*] stands for any
    run of characters, [?] for one character, every other character for
    itself; names are compared case-sensitively. *)
Fixpoint fnmatch (pat : string) : string -> bool :=
  match pat with
  | EmptyString => fun s => match s with EmptyString => true | _ => false end
  | String c pat' =>
      if Ascii.eqb c "*" then
        fix star (s : string) : bool :=
          fnmatch pat' s ||
          match s with
          | EmptyString => false
          | String _ s' => star s'
          end
      else if Ascii.eqb c "?" then
        fun s => match s with String _ s' => fnmatch pat' s' | EmptyString => false end
      else
        fun s => match s with
                 | String d s' => Ascii.eqb c d && fnmatch pat' s'
                 | EmptyString => false
                 end
  end.

Definition is_wildcard_pattern (pat : string) : bool :=
  PyStr.contains "*" pat || PyStr.contains "?" pat || PyStr.contains "[" pat.

(** pathlib's selectors, one per pattern part.  A selector that is not the
    last one only lets directories through. *)
Inductive selector : Type :=
| Terminating
| Precise (nm : string) (succ : selector)
| Wildcard (pat : string) (succ : selector)
| Recursive (succ : selector).

Fixpoint make_selector (pattern_parts : list string) : selector :=
  match pattern_parts with
  | [] => Terminating
  | pat :: child_parts =>
      if pat =? "**" then Recursive (make_selector child_parts)
      else if is_wildcard_pattern pat then Wildcard pat (make_selector child_parts)
      else Precise pat (make_selector child_parts)
  end.

Definition dironly (succ : selector) : bool :=
  match succ with Terminating => false | _ => true end.

(** The directories below (and including) the directory [n] at [parent],
    parents first, entries in [scandir] order. *)
Fixpoint iterate_directories (parent : Path) (n : node) : list (Path * node) :=
  match n with
  | Dir _ _ es =>
      (parent, n) ::
      flat_map (fun e => if node_is_dir e
                         then iterate_directories (child parent (node_name e)) e
                         else []) es
  | _ => []
  end.

(** Keep the first occurrence of every path (the [yielded] set of the
    recursive selector). *)
Fixpoint dedup_go (seen : list Path) (ps : list Path) : list Path :=
  match ps with
  | [] => []
  | p :: ps' =>
      if existsb (path_eqb p) seen then dedup_go seen ps'
      else p :: dedup_go (p :: seen) ps'
  end.
Definition dedup (ps : list Path) : list Path := dedup_go [] ps.

Fixpoint select_from (s : selector) (parent : Path) (n : node) : list Path :=
  match s with
  | Terminating => [parent]
  | Precise nm succ =>
      match find_entry nm (node_entries n) with
      | Some c =>
          if dironly succ && negb (node_is_dir c) then []
          else select_from succ (child parent nm) c
      | None => []
      end
  | Wildcard pat succ =>
      flat_map (fun e =>
                  if dironly succ && negb (node_is_dir e) then []
                  else if fnmatch pat (node_name e)
                       then select_from succ (child parent (node_name e)) e
                       else [])
               (node_entries n)
  | Recursive succ =>
      dedup (flat_map (fun pd => select_from succ (fst pd) (snd pd))
                      (iterate_directories parent n))
  end.

(** [directory.rglob(pattern)] *)
Definition rglob (fs : FS) (directory : Path) (pattern : string) : list Path :=
  match resolve fs directory with
  | Some n =>
      if node_is_dir n
      then select_from (make_selector ("**" :: parse_parts pattern)) directory n
      else []
  | None => []
  end.

End PathLib.

(* ================================================================= *)
(** ** Methods the two analyzers share

    [IterativeAgentAnalyzer] (lines 45-151 of the iterative script) and
    [AgentNetworkAnalyzer] (lines 37-143 of the batch script) define
    [discover_agents], [read_file_safe] and [build_context] with the same
    text; they are embedded once. *)

Module Common.
Import PathLib.
#[local] Open Scope string_scope.

(** The [agent_files] dictionary: its keys in insertion order, each with
    the list of paths appended so far. *)
Definition file_dict : Type := list (string * list Path).

(** [key in d] *)
Definition dict_has (key : string) (d : file_dict) : bool :=
  existsb (fun kv => fst kv =? key) d.

(** [d[key].append(p)] for a key of [d] *)
Definition dict_append (key : string) (p : Path) (d : file_dict) : file_dict :=
  map (fun kv => if fst kv =? key then (fst kv, (snd kv ++ [p])%list) else kv) d.

(** [d.values()] flattened *)
Definition dict_paths (d : file_dict) : list Path := flat_map snd d.

Definition patterns : list string :=
  [ "*agent*.json"; "*agent*.yaml"; "*agent*.yml"; "*.agent.*";
    "*prompt*.md"; "*system*.md"; "agents/**/*"; "prompts/**/*";
    ".claude/**/*" ].

Definition empty_agent_files : file_dict :=
  [ ("json", []); ("yaml", []); ("md", []); ("txt", []); ("other", []) ].

(** The body of the inner loop of [discover_agents]. *)
Definition classify_file (fs : FS) (agent_files : file_dict) (file_path : Path)
  : file_dict :=
  if is_file fs file_path then
    let ext := PyStr.lstrip_dot (PyStr.lower (suffix file_path)) in
    if dict_has ext agent_files
    then dict_append ext file_path agent_files
    else dict_append "other" file_path agent_files
  else agent_files.

Definition discover_agents (fs : FS) (directory : Path) : file_dict :=
  fold_left
    (fun agent_files pattern =>
       fold_left (classify_file fs) (rglob fs directory pattern) agent_files)
    patterns empty_agent_files.

(** [sum(len(files) for files in agent_files.values())] *)
Definition total_files (agent_files : file_dict) : nat :=
  list_sum (map (fun kv => List.length (snd kv)) agent_files).

(** [read_file_safe]; the annotation [Optional[str]] is kept in the type. *)
Definition read_file_safe (fs : FS) (file_path : Path) (max_size : Z)
  : outcome (option string) :=
  try_except
    (size <- stat_size fs file_path ;;
     if (size >? max_size)%Z then
       size' <- stat_size fs file_path ;;
       Return (Some ("[File too large: " ++ PyStr.str_int size' ++ " bytes]"))
     else
       text <- read_text fs file_path ;;
       Return (Some text))%outcome
    (fun e => Return (Some ("[Error reading file: " ++ exc_str e ++ "]"))).

Definition default_max_size : Z := 100000.

(** [content[:2000]]: [None] is not subscriptable. *)
Definition take_2000 (content : option string) : outcome string :=
  match content with
  | Some s => Return (PyStr.take 2000 s)
  | None => Raise (Exc TypeError "'NoneType' object is not subscriptable")
  end.

(** The inventory lines of one file type. *)
Fixpoint inventory_lines (directory : Path) (files : list Path) : outcome string :=
  match files with
  | [] => Return ""
  | file_path :: rest =>
      (rel_path <- relative_to file_path directory ;;
       more <- inventory_lines directory rest ;;
       Return ("- `" ++ to_string rel_path ++ "`" ++ PyStr.nl ++ more))%outcome
  end.

Fixpoint inventory (directory : Path) (items : file_dict) : outcome string :=
  match items with
  | [] => Return ""
  | (file_type, files) :: rest =>
      (block <-
         match files with
         | [] => Return ""
         | _ :: _ =>
             lines <- inventory_lines directory (firstn 10 files) ;;
             Return ("### " ++ PyStr.upper file_type ++ " Files ("
                       ++ PyStr.str_nat (List.length files) ++ ")" ++ PyStr.nl
                       ++ lines
                       ++ (if (10 <? List.length files)%nat
                           then "- ... and "
                                  ++ PyStr.str_nat (List.length files - 10)
                                  ++ " more" ++ PyStr.nl
                           else "")
                       ++ PyStr.nl)
         end ;;
       more <- inventory directory rest ;;
       Return (block ++ more))%outcome
  end.

Definition max_samples : nat := 5.

(** The inner sample loop: at most two files of a type, stopping when
    [sample_count] reaches [max_samples]. *)
Fixpoint sample_files (fs : FS) (directory : Path) (file_type : string)
         (files : list Path) (context : string) (sample_count : nat)
  : outcome (string * nat) :=
  match files with
  | [] => Return (context, sample_count)
  | file_path :: rest =>
      if (max_samples <=? sample_count)%nat then Return (context, sample_count)
      else
        (rel_path <- relative_to file_path directory ;;
         content <- read_file_safe fs file_path default_max_size ;;
         shown <- take_2000 content ;;
         sample_files fs directory file_type rest
           (context ++ "### File: `" ++ to_string rel_path ++ "`"
                    ++ PyStr.nl ++ PyStr.nl
                    ++ "```" ++ file_type ++ PyStr.nl ++ shown ++ PyStr.nl
                    ++ "```" ++ PyStr.nl ++ PyStr.nl)
           (S sample_count))%outcome
  end.

Fixpoint samples (fs : FS) (directory : Path) (items : file_dict)
         (context : string) (sample_count : nat) : outcome string :=
  match items with
  | [] => Return context
  | (file_type, files) :: rest =>
      if (max_samples <=? sample_count)%nat then Return context
      else
        (r <- sample_files fs directory file_type (firstn 2 files)
                           context sample_count ;;
         samples fs directory rest (fst r) (snd r))%outcome
  end.

Definition build_context (fs : FS) (directory : Path) (agent_files : file_dict)
  : outcome string :=
  (let context :=
     "# Agent Network Analysis Context" ++ PyStr.nl ++ PyStr.nl
     ++ "**Directory**: " ++ to_string (absolute fs directory) ++ PyStr.nl ++ PyStr.nl
     ++ "**Total agent-related files found**: "
     ++ PyStr.str_nat (total_files agent_files) ++ PyStr.nl ++ PyStr.nl
     ++ "## File Inventory" ++ PyStr.nl ++ PyStr.nl in
   inv <- inventory directory agent_files ;;
   samples fs directory agent_files
           (context ++ inv ++ "## Sample File Contents" ++ PyStr.nl ++ PyStr.nl) 0)%outcome.

End Common.

(* ================================================================= *)
(** ** Suggestions, the world and the state monad *)

(** A suggestion as the review code reads it: the keys it subscripts are
    present and hold text; [responsibilities] is read with [.get] and may be
    absent. *)
Record Agent : Type := MkAgent {
  a_name : string;
  a_type : string;
  a_priority : string;
  a_purpose : string;
  a_rationale : string;
  a_responsibilities : option (list string);
  a_interfaces : string;
  a_value : string
}.

(** What a run leaves behind, in order. *)
Inductive event : Type :=
| Presented (agent : Agent) (index total : nat)  (* [present_suggestion] *)
| CalledList                                     (* [ollama.list()] *)
| CalledGenerate                                 (* [ollama.generate(...)] *)
| Wrote (p : PathLib.Path).                      (* a file opened with ['w'] *)

(** The environment of a run.  [w_stdin] holds the lines [input()] will
    read; [w_list] and [w_generate] hold what the backend answers to the
    successive [ollama.list] and [ollama.generate] calls, whatever the
    prompt; [w_now] is the formatted clock; [w_files] maps the files written
    so far to their contents, the latest first. *)
Record World : Type := MkWorld {
  w_fs : PathLib.FS;
  w_stdin : list string;
  w_list : list (exc + list string);
  w_generate : list (exc + string);
  w_now : string;
  w_files : list (PathLib.Path * string);
  w_trace : list event
}.

Definition set_stdin (lines : list string) (w : World) : World :=
  MkWorld (w_fs w) lines (w_list w) (w_generate w) (w_now w) (w_files w) (w_trace w).
Definition set_list (l : list (exc + list string)) (w : World) : World :=
  MkWorld (w_fs w) (w_stdin w) l (w_generate w) (w_now w) (w_files w) (w_trace w).
Definition set_generate (g : list (exc + string)) (w : World) : World :=
  MkWorld (w_fs w) (w_stdin w) (w_list w) g (w_now w) (w_files w) (w_trace w).
Definition set_files (fl : list (PathLib.Path * string)) (w : World) : World :=
  MkWorld (w_fs w) (w_stdin w) (w_list w) (w_generate w) (w_now w) fl (w_trace w).
Definition log (e : event) (w : World) : World :=
  MkWorld (w_fs w) (w_stdin w) (w_list w) (w_generate w) (w_now w) (w_files w)
          (w_trace w ++ [e]).

(** Stateful code: the state survives an exception. *)
Definition M (S A : Type) : Type := S -> outcome A * S.

Definition ret {S A} (a : A) : M S A := fun s => (Return a, s).
Definition raise {S A} (e : exc) : M S A := fun s => (Raise e, s).
Definition sys_exit {S A} (status : Z) : M S A := fun s => (SysExit status, s).
Definition bind {S A B} (m : M S A) (k : A -> M S B) : M S B :=
  fun s =>
    match m s with
    | (Return a, s') => k a s'
    | (Raise e, s') => (Raise e, s')
    | (SysExit n, s') => (SysExit n, s')
    | (Hang, s') => (Hang, s')
    end.
Definition get {S} : M S S := fun s => (Return s, s).
Definition modify {S} (f : S -> S) : M S unit := fun s => (Return tt, f s).
Definition lift_outcome {S A} (o : outcome A) : M S A := fun s => (o, s).

(** [try: body / except Exception as e: handler e] *)
Definition try_catch {S A} (body : M S A) (handler : exc -> M S A) : M S A :=
  fun s =>
    match body s with
    | (Raise e, s') => handler e s'
    | other => other
    end.

Declare Scope M_scope.
Delimit Scope M_scope with M.
Notation "x <- m ;; k" := (bind m (fun x => k))
  (at level 61, m at next level, right associativity) : M_scope.
Notation "m ;;; k" := (bind m (fun _ => k))
  (at level 61, right associativity) : M_scope.

(** The exit status the shell sees: an uncaught exception ends the
    interpreter with status 1; a script that hangs ends when the user
    interrupts it, with the status of that signal. *)
Definition exit_status {A} (o : outcome A) : Z :=
  match o with
  | Return _ => 0
  | Raise _ => 1
  | SysExit n => n
  | Hang => 130
  end.

(** *** Operations on the world *)

(** [input(prompt)]: the next line, [EOFError] at the end of the input. *)
Definition input : M World string :=
  fun w =>
    match w_stdin w with
    | [] => (Raise (Exc EOFError "EOF when reading a line"), w)
    | line :: rest => (Return line, set_stdin rest w)
    end.

(** [ollama.list()], reduced to the names of the models it reports. *)
Definition ollama_list : M World (list string) :=
  fun w =>
    let w1 := log CalledList w in
    match w_list w1 with
    | [] => (Raise (Exc ConnectionError "Failed to connect to Ollama"), w1)
    | inl e :: rest => (Raise e, set_list rest w1)
    | inr names :: rest => (Return names, set_list rest w1)
    end.

(** [ollama.generate(...)['response']] *)
Definition ollama_generate : M World string :=
  fun w =>
    let w1 := log CalledGenerate w in
    match w_generate w1 with
    | [] => (Raise (Exc ConnectionError "Failed to connect to Ollama"), w1)
    | inl e :: rest => (Raise e, set_generate rest w1)
    | inr text :: rest => (Return text, set_generate rest w1)
    end.

(** [with open(p, 'w') as f:] followed by the [f.write] calls whose
    arguments are [chunks], after the [mkdir(parents=True, exist_ok=True)]
    of the directory.  Both are taken to succeed: the model does not look
    at the tree here, and what it says of a write holds where the tree
    puts nothing in the way ([Invariants.fresh_findings]). *)
Definition write_file (p : PathLib.Path) (chunks : list string) : M World unit :=
  modify (fun w => log (Wrote p) (set_files ((p, String.concat "" chunks) :: w_files w) w)).

(** The content of a written file. *)
Definition file_content (w : World) (p : PathLib.Path) : option string :=
  match List.find (fun kv => PathLib.path_eqb (fst kv) p) (w_files w) with
  | Some kv => Some (snd kv)
  | None => None
  end.

(** The suggestions presented so far, as (index, total, agent). *)
Definition presented (w : World) : list (nat * nat * Agent) :=
  flat_map (fun e => match e with
                     | Presented agent index total => [(index, total, agent)]
                     | _ => []
                     end) (w_trace w).

(* ================================================================= *)
(** ** [analyze_network_iterative.py] *)

Module Iterative.
Import PathLib.
#[local] Open Scope string_scope.

(** [self.decisions]: a dictionary with the three fixed keys. *)
Record Decisions : Type := MkDecisions {
  accepted : list Agent;
  rejected : list Agent;
  skipped : list Agent
}.

Record Analyzer : Type := MkAnalyzer {
  model : string;
  batch_mode : bool;
  findings_dir : Path;
  system_prompts_dir : Path;
  decisions : Decisions
}.

(** [IterativeAgentAnalyzer.__init__] *)
Definition init (model : string) (batch_mode : bool) : Analyzer :=
  let findings_dir := of_string "findings" in
  {| model := model;
     batch_mode := batch_mode;
     findings_dir := findings_dir;
     system_prompts_dir := joinpath findings_dir "system-prompts";
     decisions := MkDecisions [] [] [] |}.

Definition set_decisions (d : Decisions) (a : Analyzer) : Analyzer :=
  MkAnalyzer (model a) (batch_mode a) (findings_dir a) (system_prompts_dir a) d.

(** The analyzer object and the world around it. *)
Record State : Type := MkState { self : Analyzer; world : World }.

Definition lift_world {A} (m : M World A) : M State A :=
  fun st => let (r, w') := m (world st) in (r, MkState (self st) w').

Definition discover_agents := Common.discover_agents.
Definition read_file_safe := Common.read_file_safe.
Definition build_context := Common.build_context.

(** The four answers of [get_user_decision]: ['yes'], ['no'], ['skip'],
    ['stop']. *)
Inductive decision : Type := Yes | No | Skip | Stop.

(** The [if]/[elif] chain on [choice]. *)
Definition parse_choice (choice : string) : option decision :=
  if (choice =? "y") || (choice =? "yes") then Some Yes
  else if (choice =? "n") || (choice =? "no") then Some No
  else if (choice =? "s") || (choice =? "skip") then Some Skip
  else if (choice =? "q") || (choice =? "quit") || (choice =? "stop") then Some Stop
  else None.

(** The [while True] loop of [get_user_decision] over the lines still to
    be read: the answer and the lines left, [EOFError] when the input ends
    before a valid choice. *)
Fixpoint read_decision (lines : list string) : outcome decision * list string :=
  match lines with
  | [] => (Raise (Exc EOFError "EOF when reading a line"), [])
  | line :: rest =>
      let choice := PyStr.lower (PyStr.strip line) in
      match parse_choice choice with
      | Some d => (Return d, rest)
      | None => read_decision rest
      end
  end.

Definition get_user_decision : M World decision :=
  fun w => let (r, rest) := read_decision (w_stdin w) in (r, set_stdin rest w).

Definition present_suggestion (agent : Agent) (index total : nat) : M World unit :=
  modify (log (Presented agent index total)).

Definition generate_system_prompt (agent : Agent) : M World string :=
  try_catch
    (response <- ollama_generate ;;
     ret (PyStr.strip response))%M
    (fun e => ret ("# " ++ a_name agent ++ PyStr.nl ++ PyStr.nl
                        ++ "Error generating prompt: " ++ exc_str e)).

(** The file name [save_agent_prompt] derives from the agent's name. *)
Definition prompt_filename (agent : Agent) : string :=
  let filename :=
    PyStr.replace "_" "-" (PyStr.replace " " "-" (PyStr.lower (a_name agent))) in
  PyStr.filter_chars (fun c => PyStr.isalnum c || Ascii.eqb c "-") filename.

Definition save_agent_prompt (slf : Analyzer) (agent : Agent) (prompt_content : string)
  : M World Path :=
  let target_dir :=
    if a_type agent =? "orchestration"
    then joinpath (system_prompts_dir slf) "orchestration"
    else joinpath (system_prompts_dir slf) "action" in
  let filename := prompt_filename agent in
  let output_file := joinpath target_dir (filename ++ ".md") in
  (w <- get ;;
   write_file output_file
     [ "# " ++ a_name agent ++ PyStr.nl ++ PyStr.nl;
       "**Type**: " ++ PyStr.capitalize (a_type agent) ++ PyStr.nl;
       "**Priority**: " ++ PyStr.capitalize (a_priority agent) ++ PyStr.nl;
       "**Generated**: " ++ w_now w ++ PyStr.nl ++ PyStr.nl;
       "---" ++ PyStr.nl ++ PyStr.nl;
       prompt_content ] ;;;
   ret output_file)%M.

(** [f.write(s)] on the chunks written so far. *)
Definition f_write (f : list string) (s : string) : list string := (f ++ [s])%list.

Definition write_accepted (f : list string) (agent : Agent) : list string :=
  let f := f_write f ("### " ++ a_name agent ++ PyStr.nl) in
  let f := f_write f ("- **Type**: " ++ a_type agent ++ PyStr.nl) in
  let f := f_write f ("- **Priority**: " ++ a_priority agent ++ PyStr.nl) in
  f_write f ("- **Purpose**: " ++ a_purpose agent ++ PyStr.nl ++ PyStr.nl).

Definition write_rejected (f : list string) (agent : Agent) : list string :=
  f_write f ("- **" ++ a_name agent ++ "** (" ++ a_type agent ++ "): "
                    ++ a_purpose agent ++ PyStr.nl).

Definition write_skipped (f : list string) (agent : Agent) : list string :=
  let f := f_write f ("### " ++ a_name agent ++ PyStr.nl) in
  let f := f_write f ("- **Type**: " ++ a_type agent ++ PyStr.nl) in
  let f := f_write f ("- **Priority**: " ++ a_priority agent ++ PyStr.nl) in
  let f := f_write f ("- **Purpose**: " ++ a_purpose agent ++ PyStr.nl) in
  f_write f ("- **Rationale**: " ++ a_rationale agent ++ PyStr.nl ++ PyStr.nl).

(** The [f.write] calls of [save_summary], in order. *)
Definition summary_writes (slf : Analyzer) (directory_abs now : string) : list string :=
  let d := decisions slf in
  let f := [] in
  let f := f_write f ("# Agent Network Expansion Summary" ++ PyStr.nl ++ PyStr.nl) in
  let f := f_write f ("**Analyzed Directory**: " ++ directory_abs ++ PyStr.nl) in
  let f := f_write f ("**Analysis Date**: " ++ now ++ PyStr.nl) in
  let f := f_write f ("**Model Used**: " ++ model slf ++ PyStr.nl ++ PyStr.nl) in
  let f := f_write f ("---" ++ PyStr.nl ++ PyStr.nl) in
  let f := f_write f ("## Summary" ++ PyStr.nl ++ PyStr.nl) in
  let f := f_write f ("- **Accepted**: " ++ PyStr.str_nat (List.length (accepted d))
                                        ++ " agents" ++ PyStr.nl) in
  let f := f_write f ("- **Rejected**: " ++ PyStr.str_nat (List.length (rejected d))
                                        ++ " agents" ++ PyStr.nl) in
  let f := f_write f ("- **Skipped**: " ++ PyStr.str_nat (List.length (skipped d))
                                       ++ " agents" ++ PyStr.nl ++ PyStr.nl) in
  let f :=
    match accepted d with
    | [] => f
    | _ :: _ =>
        let f := f_write f ("## Accepted Agents" ++ PyStr.nl ++ PyStr.nl) in
        fold_left write_accepted (accepted d) f
    end in
  let f :=
    match rejected d with
    | [] => f
    | _ :: _ =>
        let f := f_write f ("## Rejected Agents" ++ PyStr.nl ++ PyStr.nl) in
        let f := fold_left write_rejected (rejected d) f in
        f_write f PyStr.nl
    end in
  match skipped d with
  | [] => f
  | _ :: _ =>
      let f := f_write f ("## Skipped Agents (Review Later)" ++ PyStr.nl ++ PyStr.nl) in
      fold_left write_skipped (skipped d) f
  end.

Definition summary_file (slf : Analyzer) : Path :=
  joinpath (findings_dir slf) "analysis-summary.md".

Definition save_summary (slf : Analyzer) (directory : Path) : M World Path :=
  (w <- get ;;
   write_file (summary_file slf)
     (summary_writes slf (to_string (absolute (w_fs w) directory)) (w_now w)) ;;;
   ret (summary_file slf))%M.

Definition add_accepted (agent : Agent) (st : State) : State :=
  let d := decisions (self st) in
  MkState (set_decisions (MkDecisions (accepted d ++ [agent]) (rejected d) (skipped d))
                         (self st)) (world st).
Definition add_rejected (agent : Agent) (st : State) : State :=
  let d := decisions (self st) in
  MkState (set_decisions (MkDecisions (accepted d) (rejected d ++ [agent]) (skipped d))
                         (self st)) (world st).
Definition add_skipped (agent : Agent) (st : State) : State :=
  let d := decisions (self st) in
  MkState (set_decisions (MkDecisions (accepted d) (rejected d) (skipped d ++ [agent]))
                         (self st)) (world st).

(** The [for i, agent in enumerate(suggestions, 1)] loop of
    [run_iterative] (lines 459-482), from index [i] on; [total] is
    [len(suggestions)]. *)
Fixpoint review_loop (total i : nat) (suggestions : list Agent) : M State unit :=
  match suggestions with
  | [] => ret tt
  | agent :: rest =>
      (lift_world (present_suggestion agent i total) ;;;
       decision <- lift_world get_user_decision ;;
       match decision with
       | Yes =>
           st <- get ;;
           prompt_content <- lift_world (generate_system_prompt agent) ;;
           output_file <- lift_world (save_agent_prompt (self st) agent prompt_content) ;;
           _ <- lift_outcome (relative_to output_file (cwd (w_fs (world st)))) ;;
           modify (add_accepted agent) ;;;
           review_loop total (S i) rest
       | No =>
           modify (add_rejected agent) ;;;
           review_loop total (S i) rest
       | Skip =>
           modify (add_skipped agent) ;;;
           review_loop total (S i) rest
       | Stop => ret tt
       end)%M
  end.

Record Args : Type := MkArgs { arg_directory : string; arg_model : string }.

Section Decoder.

(** [json.loads] on the bracketed text, for replies whose array holds
    suggestion objects: the suggestions, or the exception raised. *)
Variable json_loads : string -> exc + list Agent.

(** The two [except] clauses.  The first prints [response_text[:500]];
    when the exception comes from [ollama.generate] itself that variable is
    not bound yet, and the [UnboundLocalError] leaves the handler. *)
Definition suggestions_failed (response_text : option string) (e : exc)
  : M World (list Agent) :=
  match exc_kind e, response_text with
  | JSONDecodeError, None =>
      raise (Exc UnboundLocalError
               ("cannot access local variable 'response_text' "
                  ++ "where it is not associated with a value"))
  | _, _ => ret []
  end.

Definition generate_agent_suggestions (context : string) : M World (list Agent) :=
  fun w =>
    match ollama_generate w with
    | (Return response, w') =>
        let response_text := PyStr.strip response in
        try_catch
          (let start := PyStr.find "[" response_text in
           let end_ := (PyStr.rfind "]" response_text + 1)%Z in
           if (0 <=? start)%Z && (start <? end_)%Z then
             let json_text := PyStr.slice response_text start end_ in
             match json_loads json_text with
             | inr suggestions => ret suggestions
             | inl e => raise e
             end
           else ret [])
          (suggestions_failed (Some response_text)) w'
    | (Raise e, w') => suggestions_failed None e w'
    | (SysExit n, w') => (SysExit n, w')
    | (Hang, w') => (Hang, w')
    end.

Definition run_iterative (directory : Path) : M State unit :=
  (st <- get ;;
   let agent_files := discover_agents (w_fs (world st)) directory in
   let total := Common.total_files agent_files in
   if (total =? 0)%nat then ret tt
   else
     context <- lift_outcome (build_context (w_fs (world st)) directory agent_files) ;;
     suggestions <- lift_world (generate_agent_suggestions context) ;;
     match suggestions with
     | [] => ret tt
     | _ :: _ =>
         review_loop (List.length suggestions) 1 suggestions ;;;
         st' <- get ;;
         _ <- lift_world (save_summary (self st') directory) ;;
         ret tt
     end)%M.

(** [main], from the parsed arguments on.  [Path(...).resolve()] is taken
    for a directory argument without [..] (the tree has no links), where it
    is the absolute path; with [..] in the argument the two differ, and
    what is proved of [main] is stated for arguments where they agree. *)
Definition main (args : Args) : M World unit :=
  (w <- get ;;
   let directory := absolute (w_fs w) (of_string (arg_directory args)) in
   if negb (exists_ (w_fs w) directory) then sys_exit 1
   else if negb (is_dir (w_fs w) directory) then sys_exit 1
   else
     try_catch (_ <- ollama_list ;; ret tt) (fun e => sys_exit 1) ;;;
     try_catch
       (model_names <- ollama_list ;;
        if negb (existsb (fun name => PyStr.contains (arg_model args) name) model_names)
        then
          response <- input ;;
          if negb (PyStr.lower response =? "y") then sys_exit 1 else ret tt
        else ret tt)
       (fun e => ret tt) ;;;
     (fun w' =>
        let (r, st) := run_iterative directory
                         (MkState (init (arg_model args) false) w') in
        (r, world st)))%M.

End Decoder.

End Iterative.

(* ================================================================= *)
(** ** [analyze_network_local.py] *)

Module Local.
Import PathLib.
#[local] Open Scope string_scope.

Record Analyzer : Type := MkAnalyzer {
  model : string;
  findings_dir : Path;
  system_prompts_dir : Path
}.

(** [AgentNetworkAnalyzer.__init__] *)
Definition init (model : string) : Analyzer :=
  let findings_dir := of_string "findings" in
  {| model := model;
     findings_dir := findings_dir;
     system_prompts_dir := joinpath findings_dir "system-prompts" |}.

Definition discover_agents := Common.discover_agents.
Definition read_file_safe := Common.read_file_safe.
Definition build_context := Common.build_context.

(** [create_analysis_prompt] wraps the context in fixed text; the prompt
    only goes to the backend, whose answers the world holds. *)
Definition analyze_with_ollama : M World string :=
  try_catch ollama_generate
            (fun e => ret ("Error during analysis: " ++ exc_str e)).

Definition save_findings (slf : Analyzer) (analysis : string) (directory : Path)
  : M World Path :=
  let output_file := joinpath (findings_dir slf) "agent-network-analysis.md" in
  (w <- get ;;
   write_file output_file
     [ "# Multi-Agent Network Analysis" ++ PyStr.nl ++ PyStr.nl;
       "**Analyzed Directory**: " ++ to_string (absolute (w_fs w) directory) ++ PyStr.nl;
       "**Analysis Model**: " ++ model slf ++ PyStr.nl;
       "**Generated**: " ++ to_string (cwd (w_fs w)) ++ PyStr.nl ++ PyStr.nl;
       "---" ++ PyStr.nl ++ PyStr.nl;
       analysis ] ;;;
   ret output_file)%M.

(** The [while True] loop of [offer_system_prompts] over the lines still
    to be read. *)
Fixpoint read_offer (lines : list string) : outcome bool * list string :=
  match lines with
  | [] => (Raise (Exc EOFError "EOF when reading a line"), [])
  | line :: rest =>
      let choice := PyStr.strip line in
      if choice =? "1" then (Return true, rest)
      else if (choice =? "2") || (choice =? "3") then (Return false, rest)
      else read_offer rest
  end.

Definition offer_system_prompts : M World bool :=
  fun w => let (r, rest) := read_offer (w_stdin w) in (r, set_stdin rest w).

(** The name taken from the first of [lines] that mentions an agent,
    [default] when none does. *)
Fixpoint name_from_lines (lines : list string) (default : string) : string :=
  match lines with
  | [] => default
  | line :: rest =>
      if PyStr.contains "Agent:" line || PyStr.contains "# Agent" line then
        let name :=
          PyStr.replace " " "-"
            (PyStr.lower (PyStr.strip (last (PyStr.split ":" line) ""))) in
        PyStr.filter_chars (fun c => PyStr.isalnum c || Ascii.eqb c "-") name
      else name_from_lines rest default
  end.

Definition prompt_name (i : nat) (agent_prompt : string) : string :=
  name_from_lines (firstn 3 (PyStr.split PyStr.nl agent_prompt))
                  ("agent-" ++ PyStr.str_nat i).

Definition is_orchestration (agent_prompt : string) : bool :=
  existsb (fun word => PyStr.contains word (PyStr.lower agent_prompt))
          [ "orchestrat"; "coordinat"; "rout"; "priorit" ].

(** Where the prompt numbered [i] goes. *)
Definition prompt_file (slf : Analyzer) (i : nat) (agent_prompt : string) : Path :=
  let orchestration_dir := joinpath (system_prompts_dir slf) "orchestration" in
  let action_dir := joinpath (system_prompts_dir slf) "action" in
  let target_dir := if is_orchestration agent_prompt then orchestration_dir else action_dir in
  joinpath target_dir (prompt_name i agent_prompt ++ ".md").

(** The [for i, agent_prompt in enumerate(agent_prompts, 1)] loop. *)
Fixpoint save_prompts (slf : Analyzer) (i : nat) (agent_prompts : list string)
  : M World unit :=
  match agent_prompts with
  | [] => ret tt
  | agent_prompt :: rest =>
      let agent_prompt := PyStr.strip agent_prompt in
      if agent_prompt =? "" then save_prompts slf (S i) rest
      else
        (let output_file := prompt_file slf i agent_prompt in
         write_file output_file [agent_prompt] ;;;
         _ <- lift_outcome (relative_to output_file (findings_dir slf)) ;;
         save_prompts slf (S i) rest)%M
  end.

Definition generate_system_prompts (slf : Analyzer) (analysis : string) : M World unit :=
  try_catch
    (prompts_text <- ollama_generate ;;
     save_prompts slf 1 (PyStr.split "---AGENT---" prompts_text))%M
    (fun e => ret tt).

Definition run (slf : Analyzer) (directory : Path) (generate_prompts : bool)
  : M World unit :=
  (w <- get ;;
   let agent_files := discover_agents (w_fs w) directory in
   let total := Common.total_files agent_files in
   if (total =? 0)%nat then ret tt
   else
     context <- lift_outcome (build_context (w_fs w) directory agent_files) ;;
     analysis <- analyze_with_ollama ;;
     _ <- save_findings slf analysis directory ;;
     wanted <- (if generate_prompts then ret true else offer_system_prompts) ;;
     if wanted then generate_system_prompts slf analysis else ret tt)%M.

Record Args : Type := MkArgs {
  arg_directory : string;
  arg_model : string;
  arg_prompts : bool
}.

(** [main], from the parsed arguments on. *)
Definition main (args : Args) : M World unit :=
  (w <- get ;;
   let directory := absolute (w_fs w) (of_string (arg_directory args)) in
   if negb (exists_ (w_fs w) directory) then sys_exit 1
   else if negb (is_dir (w_fs w) directory) then sys_exit 1
   else
     try_catch (_ <- ollama_list ;; ret tt) (fun e => sys_exit 1) ;;;
     try_catch
       (model_names <- ollama_list ;;
        if negb (existsb (fun name => PyStr.contains (arg_model args) name) model_names)
        then
          response <- input ;;
          if negb (PyStr.lower response =? "y") then sys_exit 1 else ret tt
        else ret tt)
       (fun e => ret tt) ;;;
     run (init (arg_model args)) directory (arg_prompts args))%M.

End Local.

(* ================================================================= *)
(** ** Vocabulary of the properties *)

Module Props.
Import PathLib.
#[local] Open Scope string_scope.

(** *** Glob patterns, read declaratively

    A relative path matches a list of pattern parts when the parts can be
    laid along it: [**] covers any number of leading components, every
    other part covers one component that [fnmatch]es it. *)
Fixpoint glob_match (pattern_parts : list string) : list string -> bool :=
  match pattern_parts with
  | [] => fun rel => match rel with [] => true | _ :: _ => false end
  | pat :: rest =>
      if pat =? "**" then
        fix skip (rel : list string) : bool :=
          glob_match rest rel ||
          match rel with
          | [] => false
          | _ :: rel' => skip rel'
          end
      else
        fun rel =>
          match rel with
          | [] => false
          | r :: rel' => fnmatch pat r && glob_match rest rel'
          end
  end.

(** [p] lies under [directory] and its path below it matches [pattern]
    at some depth, as [rglob] means it. *)
Definition path_matches (directory : Path) (pattern : string) (p : Path) : bool :=
  Bool.eqb (root p) (root directory)
  && is_prefix (parts directory) (parts p)
  && glob_match ("**" :: parse_parts pattern)
                (skipn (List.length (parts directory)) (parts p)).

(** [p] is [parent] followed by the components [rel]. *)
Definition extends (parent p : Path) (rel : list string) : Prop :=
  p = {| root := root parent; parts := parts parent ++ rel |}.

(** *** The review protocol *)

(** The valid choices among the lines typed, in order. *)
Fixpoint answers (lines : list string) : list Iterative.decision :=
  match lines with
  | [] => []
  | line :: rest =>
      match Iterative.parse_choice (PyStr.lower (PyStr.strip line)) with
      | Some d => d :: answers rest
      | None => answers rest
      end
  end.

(** ['no'] or ['skip']: the review goes on to the next suggestion. *)
Definition declines (d : Iterative.decision) : bool :=
  match d with
  | Iterative.No | Iterative.Skip => true
  | _ => false
  end.

Definition is_no (d : Iterative.decision) : bool :=
  match d with Iterative.No => true | _ => false end.
Definition is_skip (d : Iterative.decision) : bool :=
  match d with Iterative.Skip => true | _ => false end.

(** Suggestion [i], [i+1], ... of [total]. *)
Fixpoint numbered (total i : nat) (suggestions : list Agent) : list (nat * nat * Agent) :=
  match suggestions with
  | [] => []
  | agent :: rest => (i, total, agent) :: numbered total (S i) rest
  end.

(** The suggestions whose answer satisfies [want]. *)
Fixpoint chosen (want : Iterative.decision -> bool)
         (ds : list Iterative.decision) (suggestions : list Agent) : list Agent :=
  match ds, suggestions with
  | d :: ds', agent :: rest =>
      if want d then agent :: chosen want ds' rest else chosen want ds' rest
  | _, _ => []
  end.

(** What a review that only meets ['no'], ['skip'] and ['stop'] leaves as it
    found it. *)
Definition review_frame (st st' : Iterative.State) : Prop :=
  let w := Iterative.world st in
  let w' := Iterative.world st' in
  let slf := Iterative.self st in
  let slf' := Iterative.self st' in
  w_fs w' = w_fs w
  /\ w_now w' = w_now w
  /\ w_files w' = w_files w
  /\ w_generate w' = w_generate w
  /\ Iterative.model slf' = Iterative.model slf
  /\ Iterative.findings_dir slf' = Iterative.findings_dir slf
  /\ Iterative.accepted (Iterative.decisions slf')
     = Iterative.accepted (Iterative.decisions slf).

(** *** The summary, as a report *)

Definition count_line (label : string) (n : nat) : string :=
  "- **" ++ label ++ "**: " ++ PyStr.str_nat n ++ " agents" ++ PyStr.nl.

Definition accepted_entry (agent : Agent) : string :=
  "### " ++ a_name agent ++ PyStr.nl
  ++ "- **Type**: " ++ a_type agent ++ PyStr.nl
  ++ "- **Priority**: " ++ a_priority agent ++ PyStr.nl
  ++ "- **Purpose**: " ++ a_purpose agent ++ PyStr.nl ++ PyStr.nl.

Definition rejected_entry (agent : Agent) : string :=
  "- **" ++ a_name agent ++ "** (" ++ a_type agent ++ "): "
  ++ a_purpose agent ++ PyStr.nl.

Definition skipped_entry (agent : Agent) : string :=
  "### " ++ a_name agent ++ PyStr.nl
  ++ "- **Type**: " ++ a_type agent ++ PyStr.nl
  ++ "- **Priority**: " ++ a_priority agent ++ PyStr.nl
  ++ "- **Purpose**: " ++ a_purpose agent ++ PyStr.nl
  ++ "- **Rationale**: " ++ a_rationale agent ++ PyStr.nl ++ PyStr.nl.

(** A titled list of entries, left out when there is no entry. *)
Definition listing (title : string) (entries : list string) (closing : string) : string :=
  match entries with
  | [] => ""
  | _ :: _ => title ++ PyStr.nl ++ PyStr.nl ++ String.concat "" entries ++ closing
  end.

Definition summary_report (slf : Iterative.Analyzer) (directory_abs now : string)
  : string :=
  let d := Iterative.decisions slf in
  "# Agent Network Expansion Summary" ++ PyStr.nl ++ PyStr.nl
  ++ "**Analyzed Directory**: " ++ directory_abs ++ PyStr.nl
  ++ "**Analysis Date**: " ++ now ++ PyStr.nl
  ++ "**Model Used**: " ++ Iterative.model slf ++ PyStr.nl ++ PyStr.nl
  ++ "---" ++ PyStr.nl ++ PyStr.nl
  ++ "## Summary" ++ PyStr.nl ++ PyStr.nl
  ++ count_line "Accepted" (List.length (Iterative.accepted d))
  ++ count_line "Rejected" (List.length (Iterative.rejected d))
  ++ count_line "Skipped" (List.length (Iterative.skipped d)) ++ PyStr.nl
  ++ listing "## Accepted Agents" (map accepted_entry (Iterative.accepted d)) ""
  ++ listing "## Rejected Agents" (map rejected_entry (Iterative.rejected d)) PyStr.nl
  ++ listing "## Skipped Agents (Review Later)"
             (map skipped_entry (Iterative.skipped d)) "".

(** *** The prompt tree *)

(** A file stem made of letters, digits and hyphens. *)
Definition plain_stem (stem : string) : bool :=
  PyStr.all_chars (fun c => PyStr.isalnum c || Ascii.eqb c "-") stem.

(** [findings/system-prompts/<kind>/<stem>.md] *)
Definition prompt_path (kind stem : string) : Path :=
  {| root := false;
     parts := ["findings"; "system-prompts"; kind; stem ++ ".md"] |}.


(** Between [w] and [w'] no analysis took place: no file was written, the
    backend was not asked to generate, no input was read, and the only
    events added are [ollama.list] calls. *)
Definition no_analysis (w w' : World) : Prop :=
  w_files w' = w_files w
  /\ w_generate w' = w_generate w
  /\ w_stdin w' = w_stdin w
  /\ forall ev, In ev (w_trace w') -> In ev (w_trace w) \/ ev = CalledList.

Definition not_slash (c : ascii) : bool := negb (Ascii.eqb c "/").

(** The directory the iterative script picks: by the agent's type. *)
Definition kind_of_type (agent : Agent) : string :=
  if a_type agent =? "orchestration" then "orchestration" else "action".





End Props.

(* ================================================================= *)
(** ** A small project to run the scripts on *)

Module Demo.
Import PathLib.
#[local] Open Scope string_scope.

(** [/proj] holds [agents/helper_agent.json] and an oversized
    [system_prompt.md]; the scripts are started in [/proj]. *)
Definition fs : FS :=
  MkFS
    [ Dir "proj" 4096
        [ Dir "agents" 4096 [ File "helper_agent.json" 17 (Some "{'role': 'help'}") ];
          File "system_prompt.md" 200000 (Some "You are a helpful agent.") ] ]
    [ "proj" ].

Definition directory : Path := {| root := true; parts := ["proj"] |}.
Definition helper : Path :=
  {| root := true; parts := ["proj"; "agents"; "helper_agent.json"] |}.
Definition big : Path := {| root := true; parts := ["proj"; "system_prompt.md"] |}.

Definition router : Agent :=
  MkAgent "Task Router" "orchestration" "critical" "Routes tasks to agents"
          "No agent coordinates the others" (Some ["route"; "retry"])
          "helper" "Less manual dispatch".
Definition logger : Agent :=
  MkAgent "audit_logger" "action" "low" "Logs every action"
          "Nothing records what agents do" None "all agents" "Traceability".

(** A stand-in for [json.loads] that knows one array. *)
Definition json_loads (json_text : string) : exc + list Agent :=
  if json_text =? "[router, logger]" then inr [router; logger]
  else inl (Exc JSONDecodeError "Expecting value: line 1 column 2 (char 1)").

(** The backend is up, knows the model and answers the suggestion request
    with [reply]; [lines] is what the user types. *)
Definition world (reply : string) (lines : list string) : World :=
  {| w_fs := fs;
     w_stdin := lines;
     w_list := [inr ["qwen2.5:14b-instruct-q5_K_M"]; inr ["qwen2.5:14b-instruct-q5_K_M"]];
     w_generate := [inr reply; inr "# Role"];
     w_now := "2025-01-01 12:00:00";
     w_files := [];
     w_trace := [] |}.

Definition good_reply : string := "Here you go: [router, logger] Done.".

Definition state (lines : list string) : Iterative.State :=
  Iterative.MkState (Iterative.init "qwen2.5:14b-instruct-q5_K_M" false)
                    (world good_reply lines).

(** The context [build_context] assembles for the project. *)
Definition context : string :=
  match Common.build_context fs directory (Common.discover_agents fs directory) with
  | Return c => c
  | _ => ""
  end.

(** What [relative_to] says of the router's prompt file and [/proj]. *)
Definition not_relative : string :=
  "'findings/system-prompts/orchestration/task-router.md'"
  ++ " is not in the subpath of '/proj'".

(** The same project with a FIFO beside the agents. *)
Definition pipe_fs : FS :=
  MkFS
    [ Dir "proj" 4096
        [ Dir "agents" 4096 [ File "helper_agent.json" 17 (Some "{'role': 'help'}") ];
          Fifo "agent_events.json" 0 ] ]
    [ "proj" ].

Definition pipe : Path := {| root := true; parts := ["proj"; "agent_events.json"] |}.


(** The backend refuses the connection. *)
Definition offline : World :=
  {| w_fs := fs;
     w_stdin := [];
     w_list := [inl (Exc ConnectionError "Connection refused")];
     w_generate := [];
     w_now := "2025-01-01 12:00:00";
     w_files := [];
     w_trace := [] |}.

End Demo.

(* ================================================================= *)
(** ** Invariants of the discovery, the shared start of the scripts, the offer *)

Module Invariants.
Import PathLib.
#[local] Open Scope string_scope.

(** The invariant of the two loops of [discover_agents]: the keys are
    those of the initial dictionary, and every path sits in the bucket its
    extension selects. *)
Definition well_bucketed (d0 d : Common.file_dict) : Prop :=
  map fst d = map fst d0
  /\ forall k fl p,
       In (k, fl) d -> In p fl ->
       k = (let ext := PyStr.lstrip_dot (PyStr.lower (suffix p)) in
            if Common.dict_has ext d0 then ext else "other").

(** [p.relative_to(directory)] succeeds. *)
Definition below (directory p : Path) : Prop :=
  exists rel_path, relative_to p directory = Return rel_path.

(** Nothing stands where the scripts write: the working directory is a
    directory and has no entry at [findings_dir] yet, so that every
    [mkdir(parents=True, exist_ok=True)] and every [open(..., 'w')] below
    it finds its way free. *)
Definition fresh_findings (fs : FS) (findings_dir : Path) : bool :=
  is_dir fs (cwd fs) && negb (exists_ fs findings_dir).

End Invariants.

Module Entry.
#[local] Open Scope string_scope.

(** The part of both [main]s between the directory checks and the run:
    the two [ollama.list()] calls and the question about the model. *)
Definition model_check (model : string) : M World unit :=
  bind (try_catch (bind ollama_list (fun _ => ret tt)) (fun e => sys_exit 1))
       (fun _ =>
          try_catch
            (bind ollama_list (fun model_names =>
               if negb (existsb (fun name => PyStr.contains model name) model_names)
               then bind input (fun response =>
                      if negb (PyStr.lower response =? "y") then sys_exit 1 else ret tt)
               else ret tt))
            (fun e => ret tt)).

(** A line that [offer_system_prompts] does not accept. *)
Definition not_a_choice (line : string) : Prop :=
  (PyStr.strip line =? "1") = false
  /\ (PyStr.strip line =? "2") = false
  /\ (PyStr.strip line =? "3") = false.

End Entry.

(* ================================================================= *)
(** ** Reading files safely *)

Module ReadFileFacts.
Import PathLib.
#[local] Open Scope string_scope.

(** C9, as amended: for every path that is not a FIFO, [read_file_safe]
    returns a string, in either script, never [None], and no exception
    escapes it.  The string is the size placeholder when the size exceeds
    [max_size], the text of the file when it is within the limit and can be
    read, and the error placeholder carrying the exception's text when
    [stat] or the read raises. *)
Theorem read_file_safe_answers (fs : FS) (file_path : Path) (max_size : Z) :
  is_fifo fs file_path = false ->
  exists s : string,
    Iterative.read_file_safe fs file_path max_size = Return (Some s)
    /\ Local.read_file_safe fs file_path max_size = Return (Some s)
    /\ (forall e, stat_size fs file_path = Raise e ->
        s = "[Error reading file: " ++ exc_str e ++ "]")
    /\ (forall size, stat_size fs file_path = Return size -> (max_size < size)%Z ->
        s = "[File too large: " ++ PyStr.str_int size ++ " bytes]")
    /\ (forall size text,
          stat_size fs file_path = Return size -> (size <= max_size)%Z ->
          read_text fs file_path = Return text -> s = text)
    /\ (forall size e,
          stat_size fs file_path = Return size -> (size <= max_size)%Z ->
          read_text fs file_path = Raise e ->
          s = "[Error reading file: " ++ exc_str e ++ "]").
Proof.
  unfold Iterative.read_file_safe, Local.read_file_safe, Common.read_file_safe.
  unfold is_fifo, stat_size, read_text. intros Hfifo.
  destruct (resolve fs file_path) as [n|]; cbn.
  - destruct (node_size n >? max_size)%Z eqn:Hbig; cbn.
    + eexists. split; [reflexivity|]. split; [reflexivity|].
      split; [intros e H; discriminate|].
      split; [intros size H _; inversion H; reflexivity|].
      apply Z.gtb_lt in Hbig.
      split; intros size x H Hle; inversion H; lia.
    + assert (Hle : (node_size n <= max_size)%Z)
        by (destruct (Z.gtb_spec (node_size n) max_size); [discriminate | lia]).
      destruct n as [nm sz [t|]|nm sz es|nm sz|nm sz]; cbn in *; try discriminate;
        (eexists; split; [reflexivity|]; split; [reflexivity|];
         split; [intros e H; discriminate|];
         split; [intros size H Hlt; inversion H; lia|];
         split; [intros size text _ _ H; inversion H; reflexivity
                |intros size e _ _ H; inversion H; reflexivity]).
  - eexists. split; [reflexivity|]. split; [reflexivity|].
    split; [intros e H; inversion H; reflexivity|].
    split; [intros size H; discriminate|].
    split; intros size x H; discriminate.
Qed.

Lemma read_file_safe_answers_witness :
  exists s,
    Iterative.read_file_safe Demo.fs {| root := true; parts := ["proj"; "notes.md"] |}
                             Common.default_max_size = Return (Some s)
    /\ s = "[Error reading file: [Errno 2] No such file or directory: '/proj/notes.md']".
Proof.
  destruct (read_file_safe_answers Demo.fs {| root := true; parts := ["proj"; "notes.md"] |}
              Common.default_max_size eq_refl) as (s & H1 & _ & H3 & _).
  exists s. split; [exact H1 | exact (H3 _ eq_refl)].
Defined.

(** C9, as stated, fails: on a FIFO that nobody writes to, [stat] gives a
    size within the limit, [read_text] waits in [open], and
    [read_file_safe] never returns, in either script; no string comes
    back. *)
Lemma read_file_safe_blocks_on_fifo :
  stat_size Demo.pipe_fs Demo.pipe = Return 0%Z
  /\ Iterative.read_file_safe Demo.pipe_fs Demo.pipe Common.default_max_size = Hang
  /\ Local.read_file_safe Demo.pipe_fs Demo.pipe Common.default_max_size = Hang
  /\ forall s : string,
       Iterative.read_file_safe Demo.pipe_fs Demo.pipe Common.default_max_size
       <> Return (Some s).
Proof.
  split; [reflexivity|]. split; [reflexivity|]. split; [reflexivity|].
  intros s H. discriminate H.
Qed.

(** C5: for a file whose size exceeds [max_size], [read_file_safe] returns
    the placeholder that carries the size in bytes, in either script; the
    result is the same whatever the file holds, so it is not the content. *)
Theorem read_file_safe_oversized (fs : FS) (file_path : Path) (max_size size : Z) :
  stat_size fs file_path = Return size ->
  (max_size < size)%Z ->
  let placeholder := "[File too large: " ++ PyStr.str_int size ++ " bytes]" in
  Iterative.read_file_safe fs file_path max_size = Return (Some placeholder)
  /\ Local.read_file_safe fs file_path max_size = Return (Some placeholder)
  /\ forall fs' : FS,
       stat_size fs' file_path = Return size ->
       Common.read_file_safe fs' file_path max_size = Return (Some placeholder).
Proof.
  intros Hstat Hbig placeholder.
  assert (H : forall fs', stat_size fs' file_path = Return size ->
              Common.read_file_safe fs' file_path max_size = Return (Some placeholder)).
  { intros fs' Hs. unfold Common.read_file_safe. rewrite Hs. cbn.
    replace (size >? max_size)%Z with true by (symmetry; apply Z.gtb_lt; lia).
    cbn. reflexivity. }
  repeat split; auto.
Qed.

Lemma read_file_safe_oversized_witness :
  stat_size Demo.fs Demo.big = Return 200000%Z
  /\ (Common.default_max_size < 200000)%Z
  /\ Iterative.read_file_safe Demo.fs Demo.big Common.default_max_size
     = Return (Some "[File too large: 200000 bytes]").
Proof.
  split; [reflexivity | split; [reflexivity | ]].
  exact (proj1 (read_file_safe_oversized Demo.fs Demo.big Common.default_max_size
                  200000 eq_refl eq_refl)).
Defined.

End ReadFileFacts.

(* ================================================================= *)
(** ** The backend: malformed replies and an unreachable service *)

Module BackendFacts.
Import PathLib.
#[local] Open Scope string_scope.

(** C4: when the reply holds no bracketed array ([find] fails or the last
    bracket does not come after the first), or [json.loads] raises a decode
    error on the bracketed text, [generate_agent_suggestions] returns the
    empty list and does not raise. *)
Theorem generate_agent_suggestions_degrades
        (json_loads : string -> exc + list Agent) (context : string)
        (w : World) (reply : string) (rest : list (exc + string)) :
  w_generate w = inr reply :: rest ->
  let response_text := PyStr.strip reply in
  let start := PyStr.find "[" response_text in
  let end_ := (PyStr.rfind "]" response_text + 1)%Z in
  ((start < 0)%Z
   \/ (end_ <= start)%Z
   \/ exists msg, json_loads (PyStr.slice response_text start end_)
                  = inl (Exc JSONDecodeError msg)) ->
  fst (Iterative.generate_agent_suggestions json_loads context w) = Return [].
Proof.
  intros Hgen response_text start end_ Hbad.
  unfold Iterative.generate_agent_suggestions, try_catch, bind, ollama_generate.
  cbn. rewrite Hgen. cbn.
  fold response_text. fold start. fold end_.
  destruct ((0 <=? start)%Z && (start <? end_)%Z) eqn:Hcond; cbn; [|reflexivity].
  apply andb_true_iff in Hcond. destruct Hcond as [H0 H1].
  apply Z.leb_le in H0. apply Z.ltb_lt in H1.
  destruct Hbad as [Hbad|[Hbad|[msg Hbad]]]; try lia.
  rewrite Hbad. cbn. reflexivity.
Qed.

Lemma generate_agent_suggestions_degrades_witness :
  fst (Iterative.generate_agent_suggestions Demo.json_loads "context"
         (Demo.world "I cannot help with that." [])) = Return [].
Proof.
  apply (generate_agent_suggestions_degrades Demo.json_loads "context"
           (Demo.world "I cannot help with that." []) "I cannot help with that."
           [inr "# Role"] eq_refl).
  left. reflexivity.
Defined.

(** C6: when the first [ollama.list()] call fails, both [main]s leave with
    exit status 1 and no analysis has taken place. *)
Theorem main_exits_when_backend_unreachable
        (json_loads : string -> exc + list Agent)
        (iargs : Iterative.Args) (largs : Local.Args) (w : World) (e : exc) :
  fst (ollama_list w) = Raise e ->
  fst (Iterative.main json_loads iargs w) = SysExit 1
  /\ fst (Local.main largs w) = SysExit 1
  /\ exit_status (fst (Iterative.main json_loads iargs w)) <> 0%Z
  /\ exit_status (fst (Local.main largs w)) <> 0%Z
  /\ Props.no_analysis w (snd (Iterative.main json_loads iargs w))
  /\ Props.no_analysis w (snd (Local.main largs w)).
Proof.
  intros Hlist.
  assert (Hi : fst (Iterative.main json_loads iargs w) = SysExit 1
               /\ Props.no_analysis w (snd (Iterative.main json_loads iargs w))).
  { unfold Iterative.main, bind, get, try_catch, sys_exit. cbn.
    destruct (exists_ _ _); cbn; [|repeat split; auto].
    destruct (is_dir _ _); cbn; [|repeat split; auto].
    unfold ollama_list in *. cbn in *.
    destruct (w_list w) as [|[e'|names] rest]; cbn in *; try discriminate;
      (split; [reflexivity|]); repeat split; cbn; auto;
      intros ev Hin; apply in_app_or in Hin; destruct Hin as [Hin|[Hin|[]]]; auto. }
  assert (Hl : fst (Local.main largs w) = SysExit 1
               /\ Props.no_analysis w (snd (Local.main largs w))).
  { unfold Local.main, bind, get, try_catch, sys_exit. cbn.
    destruct (exists_ _ _); cbn; [|repeat split; auto].
    destruct (is_dir _ _); cbn; [|repeat split; auto].
    unfold ollama_list in *. cbn in *.
    destruct (w_list w) as [|[e'|names] rest]; cbn in *; try discriminate;
      (split; [reflexivity|]); repeat split; cbn; auto;
      intros ev Hin; apply in_app_or in Hin; destruct Hin as [Hin|[Hin|[]]]; auto. }
  destruct Hi as [Hi1 Hi2], Hl as [Hl1 Hl2].
  repeat split; auto; try (rewrite Hi1; cbn; lia); try (rewrite Hl1; cbn; lia);
    try apply Hi2; try apply Hl2.
Qed.

Lemma main_exits_when_backend_unreachable_witness :
  fst (ollama_list Demo.offline) = Raise (Exc ConnectionError "Connection refused")
  /\ fst (Iterative.main Demo.json_loads (Iterative.MkArgs "." "m") Demo.offline) = SysExit 1
  /\ fst (Local.main (Local.MkArgs "." "m" true) Demo.offline) = SysExit 1.
Proof.
  split; [reflexivity|].
  pose proof (main_exits_when_backend_unreachable Demo.json_loads
                (Iterative.MkArgs "." "m") (Local.MkArgs "." "m" true)
                Demo.offline (Exc ConnectionError "Connection refused") eq_refl) as H.
  split; [exact (proj1 H) | exact (proj1 (proj2 H))].
Defined.

End BackendFacts.

(* ================================================================= *)
(** ** Discovery *)

Module DiscoveryFacts.
Import PathLib.
#[local] Open Scope string_scope.

(** Induction on a file tree: a directory inherits the property of its entries. *)
Lemma node_tree_ind (P : node -> Prop) :
  (forall nm sz text, P (File nm sz text)) ->
  (forall nm sz es, Forall P es -> P (Dir nm sz es)) ->
  (forall nm sz, P (Special nm sz)) ->
  (forall nm sz, P (Fifo nm sz)) ->
  forall n, P n.
Proof.
  intros HF HD HS HP. fix IH 1. intros [nm sz text|nm sz es|nm sz|nm sz].
  - apply HF.
  - apply HD. induction es as [|e es IHes]; constructor; [apply IH | exact IHes].
  - apply HS.
  - apply HP.
Qed.

Lemma extends_nil parent : Props.extends parent parent [].
Proof. unfold Props.extends. rewrite app_nil_r. destruct parent; reflexivity. Qed.

Lemma extends_child parent nm p rel :
  Props.extends (child parent nm) p rel -> Props.extends parent p (nm :: rel).
Proof.
  unfold Props.extends, child. cbn. intros ->. rewrite <- app_assoc. reflexivity.
Qed.

Lemma extends_trans parent q p rel1 rel2 :
  Props.extends parent q rel1 -> Props.extends q p rel2 -> Props.extends parent p (rel1 ++ rel2).
Proof.
  unfold Props.extends. intros -> ->. cbn. rewrite app_assoc. reflexivity.
Qed.

Lemma iterate_directories_extends n :
  forall parent q d,
    In (q, d) (iterate_directories parent n) -> exists rel, Props.extends parent q rel.
Proof.
  induction n as [nm sz text|nm sz es IH|nm sz|nm sz] using node_tree_ind;
    intros parent q d Hin; cbn in Hin; try contradiction.
  destruct Hin as [Heq|Hin].
  - inversion Heq; subst. exists []. apply extends_nil.
  - apply in_flat_map in Hin. destruct Hin as [e [He Hin]].
    rewrite Forall_forall in IH.
    destruct (node_is_dir e); [|contradiction].
    destruct (IH e He _ _ _ Hin) as [rel Hrel].
    exists (node_name e :: rel). apply extends_child. exact Hrel.
Qed.

Lemma dedup_go_In seen ps p : In p (dedup_go seen ps) -> In p ps.
Proof.
  revert seen. induction ps as [|q ps IH]; intros seen Hin; cbn in *; [contradiction|].
  destruct (existsb (path_eqb q) seen).
  - right. eapply IH. exact Hin.
  - destruct Hin as [->|Hin]; [left; reflexivity | right; eapply IH; exact Hin].
Qed.

Lemma contains_cons_false sub c s :
  PyStr.contains sub (String c s) = false ->
  prefix sub (String c s) = false /\ PyStr.contains sub s = false.
Proof. cbn [PyStr.contains]. intros H. apply orb_false_iff in H. exact H. Qed.

Lemma fnmatch_literal pat :
  is_wildcard_pattern pat = false -> fnmatch pat pat = true.
Proof.
  unfold is_wildcard_pattern. intros H.
  apply orb_false_iff in H. destruct H as [H Hb].
  apply orb_false_iff in H. destruct H as [Hs Hq]. clear Hb.
  induction pat as [|c pat IH]; [reflexivity|].
  apply contains_cons_false in Hs. destruct Hs as [Hs1 Hs2].
  apply contains_cons_false in Hq. destruct Hq as [Hq1 Hq2].
  cbn [fnmatch].
  destruct (Ascii.eqb c "*") eqn:E1.
  { apply Ascii.eqb_eq in E1. subst c. destruct pat; cbn in Hs1; discriminate. }
  destruct (Ascii.eqb c "?") eqn:E2.
  { apply Ascii.eqb_eq in E2. subst c. destruct pat; cbn in Hq1; discriminate. }
  rewrite Ascii.eqb_refl. cbn. apply IH; assumption.
Qed.

Lemma glob_match_star_here rest rel :
  Props.glob_match rest rel = true -> Props.glob_match ("**" :: rest) rel = true.
Proof.
  intros H. cbn. destruct rel; rewrite H; reflexivity.
Qed.

Lemma glob_match_star_skip rest rel1 rel2 :
  Props.glob_match rest rel2 = true ->
  Props.glob_match ("**" :: rest) (rel1 ++ rel2) = true.
Proof.
  intros H. induction rel1 as [|r rel1 IH].
  - apply glob_match_star_here. exact H.
  - cbn in *. rewrite IH. apply orb_true_r.
Qed.

Lemma glob_match_part pat rest r rel :
  (pat =? "**") = false -> fnmatch pat r = true ->
  Props.glob_match rest rel = true ->
  Props.glob_match (pat :: rest) (r :: rel) = true.
Proof.
  intros Hp Hf Hr. cbn. rewrite Hp, Hf, Hr. reflexivity.
Qed.

(** What a selector chain yields lies below the starting directory and
    matches the pattern parts the chain was made from. *)
Lemma select_from_sound pattern_parts :
  forall parent n p,
    In p (select_from (make_selector pattern_parts) parent n) ->
    exists rel, Props.extends parent p rel /\ Props.glob_match pattern_parts rel = true.
Proof.
  induction pattern_parts as [|pat rest IH]; intros parent n p Hin.
  - cbn in Hin. destruct Hin as [<-|[]]. exists []. split; [apply extends_nil | reflexivity].
  - cbn [make_selector] in Hin.
    destruct (pat =? "**") eqn:Hstar.
    + apply String.eqb_eq in Hstar. subst pat.
      cbn [select_from] in Hin. apply dedup_go_In in Hin.
      apply in_flat_map in Hin. destruct Hin as [[q d] [Hqd Hin]]. cbn in Hin.
      apply iterate_directories_extends in Hqd. destruct Hqd as [rel1 H1].
      apply IH in Hin. destruct Hin as [rel2 [H2 Hm]].
      exists (rel1 ++ rel2)%list. split.
      * eapply extends_trans; eassumption.
      * apply glob_match_star_skip. exact Hm.
    + destruct (is_wildcard_pattern pat) eqn:Hw.
      * cbn [select_from] in Hin. apply in_flat_map in Hin.
        destruct Hin as [e [He Hin]].
        destruct (dironly (make_selector rest) && negb (node_is_dir e)); [contradiction|].
        destruct (fnmatch pat (node_name e)) eqn:Hf; [|contradiction].
        apply IH in Hin. destruct Hin as [rel [Hrel Hm]].
        exists (node_name e :: rel). split.
        -- apply extends_child. exact Hrel.
        -- apply glob_match_part; assumption.
      * cbn [select_from] in Hin.
        destruct (find_entry pat (node_entries n)) as [c|] eqn:Hfind; [|contradiction].
        destruct (dironly (make_selector rest) && negb (node_is_dir c)); [contradiction|].
        apply IH in Hin. destruct Hin as [rel [Hrel Hm]].
        exists (pat :: rel). split.
        -- apply extends_child. exact Hrel.
        -- apply glob_match_part; try assumption. apply fnmatch_literal. exact Hw.
Qed.

Lemma is_prefix_app xs ys : is_prefix xs (xs ++ ys) = true.
Proof. induction xs as [|x xs IH]; cbn; [reflexivity|]. rewrite String.eqb_refl. exact IH. Qed.

Lemma skipn_length_app (xs ys : list string) : skipn (List.length xs) (xs ++ ys) = ys.
Proof. induction xs as [|x xs IH]; cbn; [reflexivity | exact IH]. Qed.

(** [rglob] only yields paths that match its pattern under the directory. *)
Lemma rglob_sound fs directory pattern p :
  In p (rglob fs directory pattern) -> Props.path_matches directory pattern p = true.
Proof.
  unfold rglob. intros Hin.
  destruct (resolve fs directory) as [n|]; [|contradiction].
  destruct (node_is_dir n); [|contradiction].
  apply select_from_sound in Hin. destruct Hin as [rel [Hrel Hm]].
  unfold Props.path_matches. rewrite Hrel. cbn [root parts].
  rewrite eqb_reflx, is_prefix_app, skipn_length_app, Hm. reflexivity.
Qed.

Lemma dict_append_In key q d p :
  In p (Common.dict_paths (Common.dict_append key q d)) ->
  In p (Common.dict_paths d) \/ p = q.
Proof.
  unfold Common.dict_paths, Common.dict_append.
  induction d as [|[k files] d IH]; cbn; intros Hin; [contradiction|].
  destruct (k =? key); cbn in Hin.
  - apply in_app_or in Hin. destruct Hin as [Hin|Hin].
    + apply in_app_or in Hin. destruct Hin as [Hin|[<-|[]]].
      * left. apply in_or_app. left. exact Hin.
      * right. reflexivity.
    + destruct (IH Hin) as [H|H]; [left; apply in_or_app; right; exact H | right; exact H].
  - apply in_app_or in Hin. destruct Hin as [Hin|Hin].
    + left. apply in_or_app. left. exact Hin.
    + destruct (IH Hin) as [H|H]; [left; apply in_or_app; right; exact H | right; exact H].
Qed.

Lemma classify_file_In fs d q p :
  In p (Common.dict_paths (Common.classify_file fs d q)) ->
  In p (Common.dict_paths d) \/ (p = q /\ is_file fs q = true).
Proof.
  unfold Common.classify_file. destruct (is_file fs q) eqn:Hf; [|auto].
  destruct (Common.dict_has _ d); intros Hin; apply dict_append_In in Hin;
    destruct Hin; auto.
Qed.

Lemma classify_files_In fs files : forall d p,
  In p (Common.dict_paths (fold_left (Common.classify_file fs) files d)) ->
  In p (Common.dict_paths d) \/ (In p files /\ is_file fs p = true).
Proof.
  induction files as [|q files IH]; cbn; intros d p Hin; [auto|].
  apply IH in Hin. destruct Hin as [Hin|[Hin Hf]].
  - apply classify_file_In in Hin. destruct Hin as [Hin|[-> Hf]]; auto.
  - auto.
Qed.

(** A path in a bucket was already there or is a regular file that [rglob]
    yielded for one of the patterns. *)
Lemma discover_patterns_In fs directory pats : forall d p,
  In p (Common.dict_paths
          (fold_left (fun agent_files pattern =>
                        fold_left (Common.classify_file fs)
                                  (rglob fs directory pattern) agent_files) pats d)) ->
  In p (Common.dict_paths d)
  \/ (is_file fs p = true /\ exists pattern, In pattern pats /\ In p (rglob fs directory pattern)).
Proof.
  induction pats as [|pat pats IH]; cbn; intros d p Hin; [auto|].
  apply IH in Hin. destruct Hin as [Hin|[Hf [pattern [Hp Hin]]]].
  - apply classify_files_In in Hin. destruct Hin as [Hin|[Hin Hf]]; [auto|].
    right. split; [exact Hf|]. exists pat. auto.
  - right. split; [exact Hf|]. exists pattern. auto.
Qed.

(** C7: every path in every bucket that [discover_agents] returns is a
    regular file, lies under the searched directory and matches one of the
    declared patterns there; so no bucket holds a file that matches none.
    Both scripts. *)
Theorem discover_agents_only_matching
        (fs : FS) (directory : Path) (key : string) (files : list Path) (p : Path) :
  In (key, files) (Iterative.discover_agents fs directory)
  \/ In (key, files) (Local.discover_agents fs directory) ->
  In p files ->
  is_file fs p = true
  /\ exists pattern,
       In pattern Common.patterns /\ Props.path_matches directory pattern p = true.
Proof.
  intros Hbucket Hp.
  assert (Hin : In p (Common.dict_paths (Common.discover_agents fs directory))).
  { unfold Common.dict_paths. apply in_flat_map. exists (key, files).
    split; [destruct Hbucket; assumption | exact Hp]. }
  unfold Common.discover_agents in Hin. apply discover_patterns_In in Hin.
  destruct Hin as [Hin|[Hf [pattern [Hpat Hin]]]].
  - cbn in Hin. contradiction.
  - split; [exact Hf|]. exists pattern. split; [exact Hpat|].
    apply rglob_sound with (fs := fs). exact Hin.
Qed.

Lemma discover_agents_only_matching_witness :
  is_file Demo.fs Demo.helper = true
  /\ exists pattern,
       In pattern Common.patterns
       /\ Props.path_matches Demo.directory pattern Demo.helper = true.
Proof.
  apply (discover_agents_only_matching Demo.fs Demo.directory "json"
           [Demo.helper; Demo.helper] Demo.helper).
  - left. vm_compute. left. reflexivity.
  - left. reflexivity.
Defined.

(** C10: [discover_agents] does not deduplicate across patterns: in the
    demo project [agents/helper_agent.json] matches two patterns and is
    listed twice, in both scripts, so the total exceeds the number of
    distinct files. *)
Theorem discover_agents_repeats_files :
  exists (fs : FS) (directory file_path : Path),
    is_file fs file_path = true
    /\ In file_path (rglob fs directory "*agent*.json")
    /\ In file_path (rglob fs directory "agents/**/*")
    /\ count_occ Path_eq_dec
         (Common.dict_paths (Iterative.discover_agents fs directory)) file_path = 2
    /\ count_occ Path_eq_dec
         (Common.dict_paths (Local.discover_agents fs directory)) file_path = 2
    /\ List.length (nodup Path_eq_dec
                      (Common.dict_paths (Iterative.discover_agents fs directory)))
       < Common.total_files (Iterative.discover_agents fs directory).
Proof.
  exists Demo.fs, Demo.directory, Demo.helper.
  repeat split; vm_compute; auto.
Qed.

End DiscoveryFacts.

(* ================================================================= *)
(** ** Facts about texts *)

Module TextFacts.
#[local] Open Scope string_scope.

Lemma str_app_nil_r s : s ++ "" = s.
Proof. induction s as [|c s IH]; cbn; [reflexivity | now rewrite IH]. Qed.

Lemma str_app_assoc s t u : (s ++ t) ++ u = s ++ (t ++ u).
Proof. induction s as [|c s IH]; cbn; [reflexivity | now rewrite IH]. Qed.

Lemma str_app_nil_l s : "" ++ s = s.
Proof. reflexivity. Qed.

Lemma concat_cons x xs : String.concat "" (x :: xs) = x ++ String.concat "" xs.
Proof. destruct xs; cbn; [now rewrite str_app_nil_r | reflexivity]. Qed.

Lemma concat_app xs ys :
  String.concat "" (xs ++ ys)%list = String.concat "" xs ++ String.concat "" ys.
Proof.
  induction xs as [|x xs IH]; [reflexivity|].
  rewrite <- app_comm_cons, !concat_cons, IH, str_app_assoc. reflexivity.
Qed.

Lemma concat_nil : String.concat "" [] = "".
Proof. reflexivity. Qed.

(** Bring a text built with [++] and [String.concat] to one right-nested
    chain of pieces. *)
Ltac flatten_text :=
  repeat first
         [ rewrite concat_cons
         | rewrite concat_app
         | rewrite concat_nil
         | rewrite str_app_assoc
         | rewrite str_app_nil_r
         | rewrite str_app_nil_l ].

Lemma rev_acc_rev_acc s : forall a b,
  PyStr.rev_acc (PyStr.rev_acc s a) b = PyStr.rev_acc a (s ++ b).
Proof.
  induction s as [|c s IH]; intros a b; cbn; [reflexivity|].
  rewrite IH. reflexivity.
Qed.

Lemma all_chars_app f s t :
  PyStr.all_chars f (s ++ t) = PyStr.all_chars f s && PyStr.all_chars f t.
Proof.
  induction s as [|c s IH]; cbn; [reflexivity|].
  rewrite IH. apply andb_assoc.
Qed.

Lemma all_chars_impl (f g : ascii -> bool) s :
  (forall c, f c = true -> g c = true) ->
  PyStr.all_chars f s = true -> PyStr.all_chars g s = true.
Proof.
  intros Hfg. induction s as [|c s IH]; cbn; [reflexivity|].
  intros H. apply andb_true_iff in H. destruct H as [Hc Hs].
  rewrite (Hfg c Hc), (IH Hs). reflexivity.
Qed.

Lemma all_chars_filter f s : PyStr.all_chars f (PyStr.filter_chars f s) = true.
Proof.
  induction s as [|c s IH]; cbn; [reflexivity|].
  destruct (f c) eqn:E; cbn; [rewrite E|]; exact IH.
Qed.

Lemma prefix_char a c s : prefix (String a "") (String c s) = Ascii.eqb a c.
Proof.
  change (prefix (String a "") (String c s))
    with (if ascii_dec a c then prefix "" s else false).
  destruct (ascii_dec a c) as [->|H].
  - rewrite Ascii.eqb_refl. destruct s; reflexivity.
  - symmetry. apply Ascii.eqb_neq. exact H.
Qed.

End TextFacts.

(* ================================================================= *)
(** ** Where the prompts go *)

Module PromptFacts.
Import PathLib.
Import TextFacts.
#[local] Open Scope string_scope.

Lemma not_slash_eqb c : Props.not_slash c = true -> Ascii.eqb "/" c = false.
Proof.
  unfold Props.not_slash. intros H. apply negb_true_iff in H.
  rewrite Ascii.eqb_sym. exact H.
Qed.

Lemma split_go_no_slash s : forall cur,
  PyStr.all_chars Props.not_slash s = true ->
  PyStr.split_go "/" s 0 cur = [PyStr.rev (PyStr.rev_acc s cur)].
Proof.
  induction s as [|c s IH]; intros cur H; [reflexivity|].
  cbn [PyStr.all_chars] in H. apply andb_true_iff in H. destruct H as [Hc Hs].
  cbn [PyStr.split_go PyStr.rev_acc].
  rewrite prefix_char, (not_slash_eqb c Hc). apply IH. exact Hs.
Qed.

Lemma split_no_slash s :
  PyStr.all_chars Props.not_slash s = true -> PyStr.split "/" s = [s].
Proof.
  intros H. unfold PyStr.split. rewrite split_go_no_slash by exact H.
  unfold PyStr.rev. rewrite rev_acc_rev_acc. cbn. rewrite str_app_nil_r. reflexivity.
Qed.

Lemma plain_char_not_slash c :
  PyStr.isalnum c || Ascii.eqb c "-" = true -> Props.not_slash c = true.
Proof.
  intros H. unfold Props.not_slash. destruct (Ascii.eqb c "/") eqn:E; [|reflexivity].
  apply Ascii.eqb_eq in E. subst c. vm_compute in H. discriminate.
Qed.

Lemma md_name_facts stem :
  Props.plain_stem stem = true ->
  prefix "/" (stem ++ ".md") = false
  /\ parse_parts (stem ++ ".md") = [stem ++ ".md"].
Proof.
  intros H.
  assert (Hns : PyStr.all_chars Props.not_slash (stem ++ ".md") = true).
  { rewrite all_chars_app. apply andb_true_iff. split; [|reflexivity].
    eapply all_chars_impl; [|exact H]. exact plain_char_not_slash. }
  split.
  - destruct stem as [|c stem]; [reflexivity|].
    cbn [PyStr.all_chars append] in Hns. apply andb_true_iff in Hns.
    destruct Hns as [Hc _].
    cbn [append]. rewrite prefix_char. apply not_slash_eqb. exact Hc.
  - unfold parse_parts. rewrite split_no_slash by exact Hns. cbn [filter].
    assert (He : (stem ++ ".md" =? "") = false).
    { destruct stem; reflexivity. }
    assert (Hd : (stem ++ ".md" =? ".") = false).
    { destruct stem as [|c [|c' stem]]; cbn; try reflexivity;
        destruct (Ascii.eqb c "."); reflexivity. }
    rewrite He, Hd. reflexivity.
Qed.

Lemma joinpath_md (dir : Path) stem :
  Props.plain_stem stem = true ->
  joinpath dir (stem ++ ".md")
  = {| root := root dir; parts := parts dir ++ [stem ++ ".md"] |}.
Proof.
  intros H. destruct (md_name_facts stem H) as [Hp Hq].
  unfold joinpath. rewrite Hp, Hq. reflexivity.
Qed.



Lemma prompt_filename_plain agent : Props.plain_stem (Iterative.prompt_filename agent) = true.
Proof. unfold Iterative.prompt_filename, Props.plain_stem. apply all_chars_filter. Qed.


















End PromptFacts.

(* ================================================================= *)
(** ** The review loop and the summary *)

Module ReviewFacts.
Import PathLib.
Import Iterative.
Import TextFacts.
#[local] Open Scope string_scope.

Lemma review_frame_refl st : Props.review_frame st st.
Proof. repeat split. Qed.

Lemma review_frame_trans a b c :
  Props.review_frame a b -> Props.review_frame b c -> Props.review_frame a c.
Proof.
  unfold Props.review_frame. intros H1 H2.
  destruct H1 as (A1 & A2 & A3 & A4 & A5 & A6 & A7).
  destruct H2 as (B1 & B2 & B3 & B4 & B5 & B6 & B7).
  repeat split; etransitivity; eassumption.
Qed.

Lemma read_decision_answers lines : forall d ds,
  Props.answers lines = d :: ds ->
  exists rest, read_decision lines = (Return d, rest) /\ Props.answers rest = ds.
Proof.
  induction lines as [|line lines IH]; intros d ds H; cbn in H; [discriminate|].
  cbn [read_decision].
  destruct (parse_choice (PyStr.lower (PyStr.strip line))) as [d'|].
  - inversion H; subst. exists lines. split; reflexivity.
  - apply IH. exact H.
Qed.

Lemma presented_log e w :
  presented (log e w)
  = (presented w ++ match e with
                    | Presented agent index total => [(index, total, agent)]
                    | _ => []
                    end)%list.
Proof.
  unfold presented, log. cbn. rewrite flat_map_app. cbn. rewrite app_nil_r. reflexivity.
Qed.

Lemma forallb_cons_declines d ds :
  forallb Props.declines (d :: ds) = true ->
  (d = No \/ d = Skip) /\ forallb Props.declines ds = true.
Proof.
  cbn. intros H. apply andb_true_iff in H. destruct H as [Hd Hds].
  split; [|exact Hds]. destruct d; cbn in Hd; try discriminate; auto.
Qed.

(** The loop over answers of ['no'] and ['skip'], ended by the list or by a
    ['stop']: the suggestions presented, the buckets filled and what is
    left alone. *)
Lemma review_loop_declines suggestions : forall total i st ds tl,
  Props.answers (w_stdin (world st)) = (ds ++ tl)%list ->
  forallb Props.declines ds = true ->
  (List.length ds = List.length suggestions
   \/ (List.length ds < List.length suggestions /\ exists t, tl = Stop :: t)) ->
  exists st',
    review_loop total i suggestions st = (Return tt, st')
    /\ presented (world st')
       = (presented (world st)
          ++ Props.numbered total i (firstn (S (List.length ds)) suggestions))%list
    /\ rejected (decisions (self st'))
       = (rejected (decisions (self st)) ++ Props.chosen Props.is_no ds suggestions)%list
    /\ skipped (decisions (self st'))
       = (skipped (decisions (self st)) ++ Props.chosen Props.is_skip ds suggestions)%list
    /\ Props.review_frame st st'.
Proof.
  induction suggestions as [|agent rest IH]; intros total i st ds tl Hans Hdec Hlen.
  - exists st. cbn. rewrite !app_nil_r.
    assert (ds = []) by (destruct ds; cbn in Hlen; [reflexivity | lia]). subst ds.
    cbn. rewrite !app_nil_r. repeat split.
  - cbn [review_loop]. unfold bind at 1. unfold lift_world at 1.
    unfold present_suggestion, modify. cbn [world self].
    unfold bind at 1. unfold lift_world at 1. unfold get_user_decision.
    cbn [world self w_stdin log].
    destruct ds as [|d ds].
    + destruct Hlen as [Hlen|[_ [t ->]]]; [cbn in Hlen; lia|].
      cbn in Hans.
      destruct (read_decision_answers _ _ _ Hans) as [rest' [Hrd Hrest]].
      rewrite Hrd. cbn.
      eexists. split; [reflexivity|]. cbn.
      rewrite flat_map_app, !app_nil_r. cbn. repeat split.
    + apply forallb_cons_declines in Hdec. destruct Hdec as [Hd Hdec].
      cbn in Hans.
      destruct (read_decision_answers _ _ _ Hans) as [rest' [Hrd Hrest]].
      rewrite Hrd.
      assert (Hlen' : List.length ds = List.length rest
                      \/ (List.length ds < List.length rest /\ exists t, tl = Stop :: t)).
      { cbn in Hlen. destruct Hlen as [Hlen|[Hlen Ht]];
          [left; lia | right; split; [lia | exact Ht]]. }
      destruct Hd as [-> | ->].
      * cbn -[firstn].
        match goal with
        | |- context [review_loop total (S i) rest ?s] =>
            destruct (IH total (S i) s ds tl) as [st' (Hrun & Hpres & Hrej & Hskip & Hframe)]
        end; [exact Hrest | exact Hdec | exact Hlen' |].
        exists st'. split; [exact Hrun|].
        cbn in Hpres, Hrej, Hskip.
        split; [|split; [|split]].
        -- rewrite Hpres. rewrite flat_map_app. cbn.
           rewrite <- app_assoc. reflexivity.
        -- rewrite Hrej. cbn. rewrite <- app_assoc. reflexivity.
        -- rewrite Hskip. reflexivity.
        -- eapply review_frame_trans; [|exact Hframe]. repeat split.
      * cbn -[firstn].
        match goal with
        | |- context [review_loop total (S i) rest ?s] =>
            destruct (IH total (S i) s ds tl) as [st' (Hrun & Hpres & Hrej & Hskip & Hframe)]
        end; [exact Hrest | exact Hdec | exact Hlen' |].
        exists st'. split; [exact Hrun|].
        cbn in Hpres, Hrej, Hskip.
        split; [|split; [|split]].
        -- rewrite Hpres. rewrite flat_map_app. cbn.
           rewrite <- app_assoc. reflexivity.
        -- rewrite Hrej. reflexivity.
        -- rewrite Hskip. cbn. rewrite <- app_assoc. reflexivity.
        -- eapply review_frame_trans; [|exact Hframe]. repeat split.
Qed.

Lemma fold_write_accepted l : forall f,
  String.concat "" (fold_left write_accepted l f)
  = String.concat "" f ++ String.concat "" (map Props.accepted_entry l).
Proof.
  induction l as [|agent l IH]; intros f; cbn [fold_left map].
  - now flatten_text.
  - rewrite IH. unfold write_accepted, f_write, Props.accepted_entry.
    flatten_text. reflexivity.
Qed.

Lemma fold_write_rejected l : forall f,
  String.concat "" (fold_left write_rejected l f)
  = String.concat "" f ++ String.concat "" (map Props.rejected_entry l).
Proof.
  induction l as [|agent l IH]; intros f; cbn [fold_left map].
  - now flatten_text.
  - rewrite IH. unfold write_rejected, f_write, Props.rejected_entry.
    flatten_text. reflexivity.
Qed.

Lemma fold_write_skipped l : forall f,
  String.concat "" (fold_left write_skipped l f)
  = String.concat "" f ++ String.concat "" (map Props.skipped_entry l).
Proof.
  induction l as [|agent l IH]; intros f; cbn [fold_left map].
  - now flatten_text.
  - rewrite IH. unfold write_skipped, f_write, Props.skipped_entry.
    flatten_text. reflexivity.
Qed.

(** The chunks [save_summary] writes, put together, are the report. *)
Lemma summary_writes_report slf directory_abs now :
  String.concat "" (summary_writes slf directory_abs now)
  = Props.summary_report slf directory_abs now.
Proof.
  unfold summary_writes, Props.summary_report, Props.listing, Props.count_line, f_write.
  destruct (decisions slf) as [acc rej skp]. cbn [accepted rejected skipped].
  set (n1 := PyStr.str_nat (List.length acc)).
  set (n2 := PyStr.str_nat (List.length rej)).
  set (n3 := PyStr.str_nat (List.length skp)).
  destruct acc as [|a acc], rej as [|r rej], skp as [|s skp];
    cbn [map app];
    repeat first
           [ rewrite fold_write_accepted
           | rewrite fold_write_rejected
           | rewrite fold_write_skipped
           | progress cbn [map app]
           | progress flatten_text ];
    reflexivity.
Qed.

Lemma path_eqb_refl p : path_eqb p p = true.
Proof. unfold path_eqb. destruct (Path_eq_dec p p); [reflexivity | contradiction]. Qed.

Lemma generate_frame json_loads context w :
  let w1 := snd (generate_agent_suggestions json_loads context w) in
  w_stdin w1 = w_stdin w /\ presented w1 = presented w /\ w_files w1 = w_files w
  /\ w_fs w1 = w_fs w /\ w_now w1 = w_now w.
Proof.
  assert (Hp : forall w0 g, presented (set_generate g (log CalledGenerate w0)) = presented w0).
  { intros w0 g. unfold presented. cbn. rewrite flat_map_app. cbn. apply app_nil_r. }
  assert (Hq : forall w0, presented (log CalledGenerate w0) = presented w0).
  { intros w0. unfold presented. cbn. rewrite flat_map_app. cbn. apply app_nil_r. }
  unfold generate_agent_suggestions, try_catch, ollama_generate, suggestions_failed,
    raise, ret.
  cbn -[presented].
  destruct (w_generate w) as [|[e|text] rest]; cbn -[presented].
  - repeat split; auto.
  - destruct (exc_kind e); cbn -[presented]; repeat split; auto.
  - match goal with |- context [if ?c then _ else _] => destruct c end; cbn -[presented];
      [|repeat split; auto].
    match goal with |- context [json_loads ?t] => destruct (json_loads t) as [e|l] end;
      cbn -[presented].
    + destruct (exc_kind e); cbn -[presented]; repeat split; auto.
    + repeat split; auto.
Qed.

Lemma save_summary_spec slf directory w :
  let r := save_summary slf directory w in
  fst r = Return (summary_file slf)
  /\ file_content (snd r) (summary_file slf)
     = Some (Props.summary_report slf (to_string (absolute (w_fs (snd r)) directory))
                                  (w_now (snd r)))
  /\ presented (snd r) = presented w.
Proof.
  unfold save_summary, bind, get, write_file, modify, ret. cbn.
  split; [reflexivity|]. split.
  - unfold file_content. cbn. rewrite path_eqb_refl. cbn.
    rewrite summary_writes_report. reflexivity.
  - unfold presented. cbn. rewrite flat_map_app. cbn. apply app_nil_r.
Qed.

(** C3: [save_summary] always writes the summary file, and its text is the
    report of the decisions held at that moment: the three counts are the
    lengths of the buckets and each bucket's agents are listed in order.  A
    run of [run_iterative] that returns has either written nothing or left
    the report of its final buckets in the summary file. *)
Theorem summary_matches_buckets :
  (forall slf directory w,
      fst (save_summary slf directory w) = Return (summary_file slf)
      /\ file_content (snd (save_summary slf directory w)) (summary_file slf)
         = Some (Props.summary_report slf (to_string (absolute (w_fs w) directory))
                                      (w_now w)))
  /\ (forall json_loads directory st,
         let r := run_iterative json_loads directory st in
         fst r = Return tt ->
         w_files (world (snd r)) = w_files (world st)
         \/ file_content (world (snd r)) (summary_file (self (snd r)))
            = Some (Props.summary_report
                      (self (snd r))
                      (to_string (absolute (w_fs (world (snd r))) directory))
                      (w_now (world (snd r))))).
Proof.
  split.
  - intros slf directory w.
    destruct (save_summary_spec slf directory w) as (H1 & H2 & _).
    split; [exact H1 | exact H2].
  - intros json_loads directory st r. subst r.
    unfold run_iterative, bind, get, lift_outcome, lift_world, ret.
    cbn -[build_context discover_agents generate_agent_suggestions review_loop
          save_summary Common.total_files file_content].
    destruct (Common.total_files _ =? 0)%nat; [left; reflexivity|].
    destruct (build_context _ _ _) as [context| | |]; cbn [fst]; try discriminate.
    pose proof (generate_frame json_loads context (world st)) as Hframe.
    destruct (generate_agent_suggestions json_loads context (world st))
      as [[suggestions| | |] w1]; cbn [fst snd] in *; try discriminate.
    destruct suggestions as [|agent suggestions].
    + intros _. left. cbn. apply Hframe.
    + destruct (review_loop _ _ _ _) as [[[]| | |] st2]; cbn [fst]; try discriminate.
      pose proof (save_summary_spec (self st2) directory (world st2)) as (H1 & H2 & _).
      destruct (save_summary (self st2) directory (world st2)) as [[p| | |] w3];
        cbn [fst snd] in *; try discriminate.
      intros _. right. exact H2.
Qed.

Lemma summary_matches_buckets_witness :
  file_content
    (world (snd (run_iterative Demo.json_loads Demo.directory (Demo.state ["n"; "s"]))))
    (summary_file (init "qwen2.5:14b-instruct-q5_K_M" false))
  = Some (Props.summary_report
            (set_decisions (MkDecisions [] [Demo.router] [Demo.logger])
                           (init "qwen2.5:14b-instruct-q5_K_M" false))
            "/proj" "2025-01-01 12:00:00").
Proof.
  destruct (proj2 summary_matches_buckets Demo.json_loads Demo.directory
                  (Demo.state ["n"; "s"]) eq_refl) as [H|H].
  - vm_compute in H. discriminate H.
  - exact H.
Defined.

Lemma bind_return {S A B} (m : M S A) (k : A -> M S B) s a s' :
  m s = (Return a, s') -> bind m k s = k a s'.
Proof. intros H. unfold bind. rewrite H. reflexivity. Qed.

Lemma bind_raise {S A B} (m : M S A) (k : A -> M S B) s e s' :
  m s = (Raise e, s') -> bind m k s = (Raise e, s').
Proof. intros H. unfold bind. rewrite H. reflexivity. Qed.

Lemma lift_world_run {A} (m : M World A) slf w r w' :
  m w = (r, w') -> lift_world m (MkState slf w) = (r, MkState slf w').
Proof. intros H. unfold lift_world. cbn. rewrite H. reflexivity. Qed.

Lemma generate_system_prompt_returns agent w :
  exists content w',
    generate_system_prompt agent w = (Return content, w')
    /\ presented w' = presented w /\ w_fs w' = w_fs w.
Proof.
  unfold generate_system_prompt, try_catch, bind, ollama_generate, ret.
  cbn -[presented].
  destruct (w_generate w) as [|[e|text] rest]; cbn -[presented];
    eexists; eexists; (split; [reflexivity|]);
    (split; [|reflexivity]);
    unfold presented; cbn; rewrite flat_map_app; cbn; apply app_nil_r.
Qed.

Lemma save_agent_prompt_returns model0 batch d agent content w :
  exists w',
    save_agent_prompt (set_decisions d (init model0 batch)) agent content w
    = (Return (Props.prompt_path (Props.kind_of_type agent) (prompt_filename agent)), w')
    /\ presented w' = presented w
    /\ In (Wrote (Props.prompt_path (Props.kind_of_type agent) (prompt_filename agent)))
          (w_trace w').
Proof.
  unfold save_agent_prompt, bind, get, write_file, modify, ret, Props.kind_of_type.
  rewrite PromptFacts.joinpath_md by apply PromptFacts.prompt_filename_plain.
  destruct (a_type agent =? "orchestration"); cbn -[presented];
    eexists; (split; [reflexivity|]); (split; [rewrite presented_log; apply app_nil_r|]);
    cbn; apply in_or_app; right; left; reflexivity.
Qed.

Lemma prompt_path_not_under_cwd kind stem fs :
  exists msg,
    relative_to (Props.prompt_path kind stem) (cwd fs) = Raise (Exc ValueError msg).
Proof. unfold relative_to. cbn. eexists. reflexivity. Qed.

(** Whatever the suggestion and whatever the backend answers, the ['yes']
    branch raises [ValueError] at the [relative_to] call, after the prompt
    file is written and before the suggestion reaches the accepted bucket. *)
Lemma accept_always_raises total i agent rest st tl model0 batch d :
  self st = set_decisions d (init model0 batch) ->
  Props.answers (w_stdin (world st)) = Yes :: tl ->
  exists msg st',
    review_loop total i (agent :: rest) st = (Raise (Exc ValueError msg), st')
    /\ decisions (self st') = decisions (self st)
    /\ presented (world st') = (presented (world st) ++ [(i, total, agent)])%list
    /\ In (Wrote (Props.prompt_path (Props.kind_of_type agent) (prompt_filename agent)))
          (w_trace (world st')).
Proof.
  intros Hself Hans. destruct st as [slf w]. cbn [self world] in *. subst slf.
  destruct (read_decision_answers _ _ _ Hans) as [rest' [Hrd _]].
  set (slf := set_decisions d (init model0 batch)).
  set (w1 := log (Presented agent i total) w).
  set (w2 := set_stdin rest' w1).
  destruct (generate_system_prompt_returns agent w2) as (content & w3 & Hgen & Hp3 & Hfs3).
  destruct (save_agent_prompt_returns model0 batch d agent content w3)
    as (w4 & Hsave & Hp4 & Hin4).
  destruct (prompt_path_not_under_cwd (Props.kind_of_type agent) (prompt_filename agent)
              (w_fs w2)) as [msg Hrel].
  exists msg, (MkState slf w4).
  split; [|split; [|split]].
  - cbn [review_loop].
    rewrite (bind_return _ _ _ tt (MkState slf w1)) by reflexivity.
    rewrite (bind_return _ _ _ Yes (MkState slf w2)).
    2:{ apply lift_world_run. unfold get_user_decision. cbn [w_stdin w1 log].
        rewrite Hrd. reflexivity. }
    rewrite (bind_return _ _ _ (MkState slf w2) (MkState slf w2)) by reflexivity.
    rewrite (bind_return _ _ _ content (MkState slf w3))
      by (apply lift_world_run; exact Hgen).
    rewrite (bind_return _ _ _ _ (MkState slf w4))
      by (apply lift_world_run; exact Hsave).
    eapply bind_raise. cbn [self world]. unfold lift_outcome. rewrite Hrel. reflexivity.
  - reflexivity.
  - cbn [world]. rewrite Hp4, Hp3. subst w2 w1.
    change (presented (set_stdin rest' (log (Presented agent i total) w)))
      with (presented (log (Presented agent i total) w)).
    rewrite presented_log. reflexivity.
  - exact Hin4.
Qed.

(** C1, as amended: once [generate_agent_suggestions] has returned N > 0
    suggestions, [run_iterative] reviews them in list order, presenting
    suggestion i of N at iteration i, and goes on while the user answers
    ['no'] or ['skip']: with N such answers it performs exactly N
    iterations, and a ['stop'] given as the k-th answer ends the review after
    k iterations.  The run then returns normally. *)
Theorem review_until_stop
        (json_loads : string -> exc + list Agent) (directory : Path) (st : State)
        (context : string) (suggestions : list Agent) (w1 : World)
        (ds tl : list decision) :
  Common.total_files (discover_agents (w_fs (world st)) directory) <> 0 ->
  build_context (w_fs (world st)) directory
                (discover_agents (w_fs (world st)) directory) = Return context ->
  generate_agent_suggestions json_loads context (world st) = (Return suggestions, w1) ->
  suggestions <> [] ->
  Props.answers (w_stdin w1) = (ds ++ tl)%list ->
  forallb Props.declines ds = true ->
  (List.length ds = List.length suggestions
   \/ (List.length ds < List.length suggestions /\ exists t, tl = Stop :: t)) ->
  let r := run_iterative json_loads directory st in
  fst r = Return tt
  /\ presented (world (snd r))
     = (presented (world st)
        ++ Props.numbered (List.length suggestions) 1
                          (firstn (S (List.length ds)) suggestions))%list
  /\ (List.length ds = List.length suggestions ->
      presented (world (snd r))
      = (presented (world st)
         ++ Props.numbered (List.length suggestions) 1 suggestions)%list).
Proof.
  intros Htotal Hctx Hgen Hne Hans Hdec Hlen r.
  assert (Hrun : fst r = Return tt
                 /\ presented (world (snd r))
                    = (presented (world st)
                       ++ Props.numbered (List.length suggestions) 1
                            (firstn (S (List.length ds)) suggestions))%list).
  { subst r.
    unfold run_iterative, bind, get, lift_outcome, lift_world, ret.
    cbn -[build_context discover_agents generate_agent_suggestions review_loop
          save_summary Common.total_files presented firstn].
    apply Nat.eqb_neq in Htotal. rewrite Htotal, Hctx.
    pose proof (generate_frame json_loads context (world st)) as Hframe.
    rewrite Hgen in *. cbn [snd] in Hframe.
    destruct Hframe as (_ & Hpres1 & _).
    destruct suggestions as [|agent rest]; [contradiction|].
    destruct (review_loop_declines (agent :: rest) (List.length (agent :: rest)) 1
                {| self := self st; world := w1 |} ds tl Hans Hdec Hlen)
      as [st2 (Hloop & Hpres2 & _)].
    rewrite Hloop.
    pose proof (save_summary_spec (self st2) directory (world st2)) as (H1 & _ & H3).
    destruct (save_summary (self st2) directory (world st2)) as [[p| | |] w3];
      cbn [fst snd] in *; try discriminate.
    cbn [fst snd world self]. split; [reflexivity|].
    rewrite H3, Hpres2. cbn [world]. rewrite Hpres1. reflexivity. }
  destruct Hrun as [H1 H2]. split; [exact H1|]. split; [exact H2|].
  intros Hall. rewrite H2. rewrite Hall.
  rewrite firstn_all2 by lia. reflexivity.
Qed.

Lemma review_until_stop_witness :
  fst (run_iterative Demo.json_loads Demo.directory (Demo.state ["n"; "maybe"; "q"]))
  = Return tt
  /\ presented (world (snd (run_iterative Demo.json_loads Demo.directory
                                           (Demo.state ["n"; "maybe"; "q"]))))
     = [(1, 2, Demo.router); (2, 2, Demo.logger)].
Proof.
  pose proof (review_until_stop Demo.json_loads Demo.directory
                (Demo.state ["n"; "maybe"; "q"]) Demo.context
                [Demo.router; Demo.logger]
                (snd (generate_agent_suggestions Demo.json_loads Demo.context
                        (world (Demo.state ["n"; "maybe"; "q"]))))
                [No] [Stop]) as H.
  destruct H as (H1 & H2 & _).
  - vm_compute. discriminate.
  - vm_compute. reflexivity.
  - vm_compute. reflexivity.
  - discriminate.
  - vm_compute. reflexivity.
  - reflexivity.
  - right. split; [cbn; lia | exists []; reflexivity].
  - split; [exact H1 | exact H2].
Defined.

(** C1, as stated, fails: in the demo project the backend returns two
    well-formed suggestions and the user types [q]; the run performs one
    review iteration, not two. *)
Lemma review_stops_early :
  exists (context : string) (suggestions : list Agent) (w1 : World),
    build_context Demo.fs Demo.directory (discover_agents Demo.fs Demo.directory)
    = Return context
    /\ generate_agent_suggestions Demo.json_loads context (world (Demo.state ["q"]))
       = (Return suggestions, w1)
    /\ List.length suggestions = 2
    /\ List.length
         (presented
            (world (snd (run_iterative Demo.json_loads Demo.directory (Demo.state ["q"])))))
       = 1.
Proof.
  exists Demo.context, [Demo.router; Demo.logger].
  eexists. repeat split; vm_compute; reflexivity.
Qed.

(** C2, at the failing input: the demo run where the user answers [y] to
    the first suggestion.  The prompt file is written, then the run ends
    with [ValueError] raised by [relative_to]; the accepted bucket is still
    empty and no summary exists. *)
Theorem accept_raises_before_append :
  let r := run_iterative Demo.json_loads Demo.directory (Demo.state ["y"]) in
  fst r = Raise (Exc ValueError Demo.not_relative)
  /\ presented (world (snd r)) = [(1, 2, Demo.router)]
  /\ accepted (decisions (self (snd r))) = []
  /\ In (Wrote (Props.prompt_path "orchestration" "task-router")) (w_trace (world (snd r)))
  /\ file_content (world (snd r)) (summary_file (self (snd r))) = None.
Proof.
  vm_compute. repeat split. auto 10.
Qed.

End ReviewFacts.

(* ================================================================= *)
(** ** More on the review: what a whole run leaves behind *)

Module ReviewRunFacts.
Import PathLib.
Import Iterative.
Import TextFacts.
Import ReviewFacts.
#[local] Open Scope string_scope.

(** Once the files are found, the context is built and the backend has
    answered with suggestions, [run_iterative] is the review followed by
    the summary. *)
Lemma run_iterative_reaches_review json_loads directory st context suggestions w1 :
  Common.total_files (discover_agents (w_fs (world st)) directory) <> 0 ->
  build_context (w_fs (world st)) directory
                (discover_agents (w_fs (world st)) directory) = Return context ->
  generate_agent_suggestions json_loads context (world st) = (Return suggestions, w1) ->
  suggestions <> [] ->
  run_iterative json_loads directory st
  = bind (review_loop (List.length suggestions) 1 suggestions)
         (fun _ => bind get (fun st' =>
            bind (lift_world (save_summary (self st') directory)) (fun _ => ret tt)))
         (MkState (self st) w1).
Proof.
  intros Htotal Hctx Hgen Hne.
  unfold run_iterative.
  rewrite (bind_return _ _ _ st st) by reflexivity.
  apply Nat.eqb_neq in Htotal. rewrite Htotal.
  rewrite (bind_return _ _ _ context st) by (unfold lift_outcome; rewrite Hctx; reflexivity).
  rewrite (bind_return _ _ _ suggestions (MkState (self st) w1)).
  2:{ destruct st as [slf w]. apply lift_world_run. exact Hgen. }
  destruct suggestions as [|agent rest]; [contradiction | reflexivity].
Qed.

Lemma save_summary_files slf directory w :
  exists text,
    save_summary slf directory w
    = (Return (summary_file slf),
       log (Wrote (summary_file slf)) (set_files ((summary_file slf, text) :: w_files w) w)).
Proof. unfold save_summary, bind, get, write_file, modify, ret. cbn. eexists. reflexivity. Qed.



Lemma save_agent_prompt_presented slf agent content w :
  exists p w',
    save_agent_prompt slf agent content w = (Return p, w')
    /\ presented w' = presented w.
Proof.
  unfold save_agent_prompt, bind, get, write_file, modify, ret.
  cbn -[presented joinpath].
  eexists. eexists. split; [reflexivity|].
  rewrite presented_log. apply app_nil_r.
Qed.

Lemma numbered_firstn_S total i agent rest k :
  Props.numbered total i (firstn (S k) (agent :: rest))
  = (i, total, agent) :: Props.numbered total (S i) (firstn k rest).
Proof. reflexivity. Qed.

(** Whatever is typed, the loop presents an initial run of the suggestions,
    each once, in list order and with its own index. *)
Lemma review_loop_presents_prefix suggestions : forall total i st,
  exists k,
    k <= List.length suggestions
    /\ (suggestions <> [] -> 1 <= k)
    /\ presented (world (snd (review_loop total i suggestions st)))
       = (presented (world st) ++ Props.numbered total i (firstn k suggestions))%list.
Proof.
  induction suggestions as [|agent rest IH]; intros total i st.
  - exists 0. cbn. rewrite app_nil_r. repeat split; [lia | congruence].
  - assert (Hone : forall st',
               presented (world st') = (presented (world st) ++ [(i, total, agent)])%list ->
               exists k,
                 k <= List.length (agent :: rest)
                 /\ (agent :: rest <> [] -> 1 <= k)
                 /\ presented (world st')
                    = (presented (world st)
                       ++ Props.numbered total i (firstn k (agent :: rest)))%list).
    { intros st' H. exists 1. cbn [List.length].
      split; [lia|]. split; [intros _; lia | exact H]. }
    assert (Hmore : forall st1,
               presented (world st1) = (presented (world st) ++ [(i, total, agent)])%list ->
               exists k,
                 k <= List.length (agent :: rest)
                 /\ (agent :: rest <> [] -> 1 <= k)
                 /\ presented (world (snd (review_loop total (S i) rest st1)))
                    = (presented (world st)
                       ++ Props.numbered total i (firstn k (agent :: rest)))%list).
    { intros st1 H. destruct (IH total (S i) st1) as [k (Hk & _ & Hp)].
      exists (S k). cbn [List.length].
      split; [lia|]. split; [intros _; lia|].
      rewrite Hp, H, numbered_firstn_S, <- app_assoc. reflexivity. }
    destruct st as [slf w].
    set (w1 := log (Presented agent i total) w).
    assert (Hw1 : presented w1 = (presented w ++ [(i, total, agent)])%list)
      by (subst w1; apply presented_log).
    cbn [review_loop].
    rewrite (bind_return _ _ _ tt (MkState slf w1)) by reflexivity.
    destruct (read_decision (w_stdin w1)) as [[d| | |] rest'] eqn:Hrd.
    + rewrite (bind_return _ _ _ d (MkState slf (set_stdin rest' w1)))
        by (apply lift_world_run; unfold get_user_decision; rewrite Hrd; reflexivity).
      destruct d.
      * rewrite (bind_return _ _ _ _ (MkState slf (set_stdin rest' w1))) by reflexivity.
        destruct (generate_system_prompt_returns agent (set_stdin rest' w1))
          as (content & w3 & Hg & Hp3 & _).
        rewrite (bind_return _ _ _ content (MkState slf w3))
          by (apply lift_world_run; exact Hg).
        destruct (save_agent_prompt_presented slf agent content w3)
          as (p & w4 & Hs & Hp4).
        cbn [self].
        rewrite (bind_return _ _ _ p (MkState slf w4))
          by (apply lift_world_run; exact Hs).
        assert (Hw4 : presented w4 = (presented w ++ [(i, total, agent)])%list)
          by (rewrite Hp4, Hp3; exact Hw1).
        unfold bind at 1. unfold lift_outcome.
        destruct (relative_to p _).
        -- unfold bind at 1. unfold modify at 1. apply Hmore. cbn. exact Hw4.
        -- apply Hone. cbn. exact Hw4.
        -- apply Hone. cbn. exact Hw4.
        -- apply Hone. cbn. exact Hw4.
      * unfold bind at 1. unfold modify at 1. apply Hmore. cbn. exact Hw1.
      * unfold bind at 1. unfold modify at 1. apply Hmore. cbn. exact Hw1.
      * apply Hone. cbn. exact Hw1.
    + unfold bind at 1. unfold lift_world, get_user_decision. cbn [world self].
      rewrite Hrd. apply Hone. cbn. exact Hw1.
    + unfold bind at 1. unfold lift_world, get_user_decision. cbn [world self].
      rewrite Hrd. apply Hone. cbn. exact Hw1.
    + unfold bind at 1. unfold lift_world, get_user_decision. cbn [world self].
      rewrite Hrd. apply Hone. cbn. exact Hw1.
Qed.

(** X2: whatever the user types and whatever the backend answers, a run
    that got N > 0 suggestions presents a non-empty initial run of them:
    each at most once, in list order, suggestion i announced as i of N. *)
Theorem suggestions_are_presented_in_order
        (json_loads : string -> exc + list Agent) (directory : Path) (st : State)
        (context : string) (suggestions : list Agent) (w1 : World) :
  Common.total_files (discover_agents (w_fs (world st)) directory) <> 0 ->
  build_context (w_fs (world st)) directory
                (discover_agents (w_fs (world st)) directory) = Return context ->
  generate_agent_suggestions json_loads context (world st) = (Return suggestions, w1) ->
  suggestions <> [] ->
  exists k,
    1 <= k <= List.length suggestions
    /\ presented (world (snd (run_iterative json_loads directory st)))
       = (presented (world st)
          ++ Props.numbered (List.length suggestions) 1 (firstn k suggestions))%list.
Proof.
  intros Htotal Hctx Hgen Hne.
  rewrite (run_iterative_reaches_review _ _ _ _ _ _ Htotal Hctx Hgen Hne).
  destruct (review_loop_presents_prefix suggestions (List.length suggestions) 1
              (MkState (self st) w1)) as [k (Hk & Hk1 & Hp)].
  pose proof (generate_frame json_loads context (world st)) as G.
  rewrite Hgen in G. cbn [snd] in G. destruct G as (_ & G2 & _).
  exists k. split; [split; [apply Hk1; exact Hne | exact Hk]|].
  cbn [world] in Hp. rewrite G2 in Hp. rewrite <- Hp.
  unfold bind at 1.
  destruct (review_loop _ _ _ _) as [[[]| | |] st2]; cbn [snd]; try reflexivity.
  rewrite (bind_return _ _ _ st2 st2) by reflexivity.
  destruct (save_summary_files (self st2) directory (world st2)) as [text Hsum].
  rewrite (bind_return _ _ _ (summary_file (self st2)) (MkState (self st2) _))
    by (destruct st2; apply lift_world_run; exact Hsum).
  cbn [ret snd world]. rewrite presented_log. apply app_nil_r.
Qed.

Lemma read_decision_eof lines :
  Props.answers lines = [] ->
  read_decision lines = (Raise (Exc EOFError "EOF when reading a line"), []).
Proof.
  induction lines as [|line lines IH]; intros H; [reflexivity|].
  cbn in H. cbn [read_decision].
  destruct (parse_choice (PyStr.lower (PyStr.strip line))); [discriminate | exact (IH H)].
Qed.

(** The loop over a run of ['no'] and ['skip'] answers: it arrives at the
    next suggestion with those answers consumed and recorded. *)
Lemma review_loop_after_declines ds : forall suggestions total i st tl,
  Props.answers (w_stdin (world st)) = (ds ++ tl)%list ->
  forallb Props.declines ds = true ->
  List.length ds <= List.length suggestions ->
  exists st_mid,
    review_loop total i suggestions st
    = review_loop total (List.length ds + i) (skipn (List.length ds) suggestions) st_mid
    /\ Props.answers (w_stdin (world st_mid)) = tl
    /\ presented (world st_mid)
       = (presented (world st)
          ++ Props.numbered total i (firstn (List.length ds) suggestions))%list
    /\ rejected (decisions (self st_mid))
       = (rejected (decisions (self st)) ++ Props.chosen Props.is_no ds suggestions)%list
    /\ skipped (decisions (self st_mid))
       = (skipped (decisions (self st)) ++ Props.chosen Props.is_skip ds suggestions)%list
    /\ Props.review_frame st st_mid
    /\ self st_mid = set_decisions (decisions (self st_mid)) (self st).
Proof.
  induction ds as [|d ds IH]; intros suggestions total i st tl Hans Hdec Hlen.
  - exists st. cbn [List.length skipn firstn Props.numbered Props.chosen Nat.add].
    rewrite !app_nil_r.
    split; [reflexivity|]. split; [exact Hans|].
    split; [reflexivity|]. split; [destruct suggestions; reflexivity|].
    split; [destruct suggestions; reflexivity|].
    split; [apply review_frame_refl|].
    destruct st as [[m b f s dd] w]; reflexivity.
  - destruct suggestions as [|agent rest]; [cbn in Hlen; lia|].
    apply forallb_cons_declines in Hdec. destruct Hdec as [Hd Hdec].
    cbn in Hans.
    set (w1 := log (Presented agent i total) (world st)).
    assert (Hans1 : Props.answers (w_stdin w1) = d :: (ds ++ tl)%list) by exact Hans.
    destruct (read_decision_answers _ _ _ Hans1) as [rest' [Hrd Hrest]].
    set (st2 := MkState (self st) (set_stdin rest' w1)).
    assert (Hstep : forall add,
               (add = add_rejected agent \/ add = add_skipped agent) ->
               (d = No -> add = add_rejected agent) ->
               (d = Skip -> add = add_skipped agent) ->
               review_loop total i (agent :: rest) st
               = review_loop total (S i) rest (add st2)).
    { intros add _ HNo HSkip. cbn [review_loop]. destruct st as [slf w].
      rewrite (bind_return _ _ _ tt (MkState slf w1)) by reflexivity.
      rewrite (bind_return _ _ _ d st2)
        by (apply lift_world_run; unfold get_user_decision; rewrite Hrd; reflexivity).
      destruct Hd as [-> | ->].
      - rewrite (HNo eq_refl). reflexivity.
      - rewrite (HSkip eq_refl). reflexivity. }
    cbn in Hlen.
    assert (Hp2 : presented (world st2)
                  = (presented (world st) ++ [(i, total, agent)])%list)
      by (subst st2 w1; cbn [world]; apply presented_log).
    destruct Hd as [-> | ->].
    + destruct (IH rest total (S i) (add_rejected agent st2) tl Hrest Hdec ltac:(lia))
        as [st_mid (H1 & H2 & H3 & H4 & H5 & H6 & H7)].
      exists st_mid.
      rewrite (Hstep (add_rejected agent)) by (auto; discriminate).
      cbn [List.length skipn].
      replace (S (List.length ds) + i) with (List.length ds + S i) by lia.
      split; [exact H1|]. split; [exact H2|].
      split; [rewrite H3; cbn [firstn Props.numbered]; cbn [add_rejected world];
              rewrite Hp2, <- app_assoc; reflexivity|].
      split; [rewrite H4; cbn; rewrite <- app_assoc; reflexivity|].
      split; [rewrite H5; reflexivity|].
      split; [eapply review_frame_trans; [|exact H6]; repeat split|].
      rewrite H7 at 1. destruct st as [[m b f s dd] w]. reflexivity.
    + destruct (IH rest total (S i) (add_skipped agent st2) tl Hrest Hdec ltac:(lia))
        as [st_mid (H1 & H2 & H3 & H4 & H5 & H6 & H7)].
      exists st_mid.
      rewrite (Hstep (add_skipped agent)) by (auto; discriminate).
      cbn [List.length skipn].
      replace (S (List.length ds) + i) with (List.length ds + S i) by lia.
      split; [exact H1|]. split; [exact H2|].
      split; [rewrite H3; cbn [firstn Props.numbered]; cbn [add_skipped world];
              rewrite Hp2, <- app_assoc; reflexivity|].
      split; [rewrite H4; reflexivity|].
      split; [rewrite H5; cbn; rewrite <- app_assoc; reflexivity|].
      split; [eapply review_frame_trans; [|exact H6]; repeat split|].
      rewrite H7 at 1. destruct st as [[m b f s dd] w]. reflexivity.
Qed.

Lemma skipn_cons_nth (suggestions : list Agent) n :
  n < List.length suggestions ->
  exists agent rest,
    skipn n suggestions = agent :: rest /\ nth_error suggestions n = Some agent.
Proof.
  revert n. induction suggestions as [|a l IH]; intros n H; [cbn in H; lia|].
  destruct n as [|n]; [exists a, l; split; reflexivity|].
  cbn in H. destruct (IH n ltac:(lia)) as (agent & rest & H1 & H2).
  exists agent, rest. split; assumption.
Qed.

(** X4: when the input ends while suggestions are still to be reviewed
    (only ['no'] and ['skip'] answers, fewer than there are suggestions),
    [run_iterative] ends with the [EOFError] of [input()]; the rejections
    made so far are in the bucket, but no summary, and no other file, is
    written. *)
Theorem input_ending_mid_review_loses_the_summary
        (json_loads : string -> exc + list Agent) (directory : Path) (st : State)
        (context : string) (suggestions : list Agent) (w1 : World)
        (ds : list decision) :
  Common.total_files (discover_agents (w_fs (world st)) directory) <> 0 ->
  build_context (w_fs (world st)) directory
                (discover_agents (w_fs (world st)) directory) = Return context ->
  generate_agent_suggestions json_loads context (world st) = (Return suggestions, w1) ->
  Props.answers (w_stdin w1) = ds ->
  forallb Props.declines ds = true ->
  List.length ds < List.length suggestions ->
  let r := run_iterative json_loads directory st in
  fst r = Raise (Exc EOFError "EOF when reading a line")
  /\ w_files (world (snd r)) = w_files (world st)
  /\ rejected (decisions (self (snd r)))
     = (rejected (decisions (self st)) ++ Props.chosen Props.is_no ds suggestions)%list.
Proof.
  intros Htotal Hctx Hgen Hans Hdec Hlen r. subst r.
  assert (Hne : suggestions <> []) by (destruct suggestions; [cbn in Hlen; lia | congruence]).
  rewrite (run_iterative_reaches_review _ _ _ _ _ _ Htotal Hctx Hgen Hne).
  assert (Hans' : Props.answers (w_stdin (world (MkState (self st) w1))) = (ds ++ [])%list)
    by (rewrite app_nil_r; exact Hans).
  destruct (review_loop_after_declines ds suggestions (List.length suggestions) 1
              (MkState (self st) w1) [] Hans' Hdec ltac:(lia))
    as [st_mid (H1 & H2 & _ & H4 & _ & H6 & _)].
  destruct (skipn_cons_nth suggestions (List.length ds) Hlen) as (agent & rest & Hskip & _).
  rewrite Hskip in H1.
  pose proof (generate_frame json_loads context (world st)) as G.
  rewrite Hgen in G. cbn [snd] in G. destruct G as (_ & _ & G3 & _).
  destruct H6 as (_ & _ & F3 & _). cbn [self world] in *.
  assert (Hloop : review_loop (List.length suggestions) 1 suggestions (MkState (self st) w1)
                  = (Raise (Exc EOFError "EOF when reading a line"),
                     MkState (self st_mid)
                             (set_stdin [] (log (Presented agent (List.length ds + 1)
                                                           (List.length suggestions))
                                                (world st_mid))))).
  { rewrite H1. cbn [review_loop]. destruct st_mid as [slf wm]. cbn [world self] in *.
    rewrite (bind_return _ _ _ tt (MkState slf (log (Presented agent (List.length ds + 1)
                                                       (List.length suggestions)) wm)))
      by reflexivity.
    eapply bind_raise. apply lift_world_run. unfold get_user_decision.
    cbn [w_stdin log]. rewrite (read_decision_eof _ H2). reflexivity. }
  rewrite (bind_raise _ _ _ _ _ Hloop). cbn [fst snd self world].
  split; [reflexivity|]. split; [cbn; rewrite F3; exact G3 | exact H4].
Qed.






Lemma suggestions_are_presented_in_order_witness :
  exists k, 1 <= k <= 2
    /\ presented (world (snd (run_iterative Demo.json_loads Demo.directory
                                (Demo.state ["n"; "q"]))))
       = Props.numbered 2 1 (firstn k [Demo.router; Demo.logger]).
Proof.
  destruct (suggestions_are_presented_in_order Demo.json_loads Demo.directory
              (Demo.state ["n"; "q"]) Demo.context [Demo.router; Demo.logger]
              (snd (generate_agent_suggestions Demo.json_loads Demo.context
                      (world (Demo.state ["n"; "q"])))))
    as (k & Hk & H).
  - vm_compute. discriminate.
  - vm_compute. reflexivity.
  - vm_compute. reflexivity.
  - discriminate.
  - exists k. split; [exact Hk | exact H].
Defined.

Lemma input_ending_mid_review_loses_the_summary_witness :
  let r := run_iterative Demo.json_loads Demo.directory (Demo.state ["n"]) in
  fst r = Raise (Exc EOFError "EOF when reading a line")
  /\ w_files (world (snd r)) = []
  /\ rejected (decisions (self (snd r))) = [Demo.router].
Proof.
  exact (input_ending_mid_review_loses_the_summary Demo.json_loads Demo.directory
           (Demo.state ["n"]) Demo.context [Demo.router; Demo.logger]
           (snd (generate_agent_suggestions Demo.json_loads Demo.context
                   (world (Demo.state ["n"]))))
           [No]
           ltac:(vm_compute; discriminate) ltac:(vm_compute; reflexivity)
           ltac:(vm_compute; reflexivity) ltac:(vm_compute; reflexivity)
           ltac:(reflexivity) ltac:(cbn; lia)).
Defined.


End ReviewRunFacts.

(* ================================================================= *)
(** ** Discovery finds every match *)

Module GlobFacts.
Import PathLib.
Import DiscoveryFacts.
#[local] Open Scope string_scope.

Lemma lookup_entry n r rel t :
  lookup n (r :: rel) = Some t ->
  exists c, find_entry r (node_entries n) = Some c /\ lookup c rel = Some t.
Proof.
  cbn. destruct (find_entry r (node_entries n)) as [c|]; [|discriminate].
  intros H. exists c. split; [reflexivity | exact H].
Qed.

Lemma find_entry_In r es c : find_entry r es = Some c -> In c es /\ node_name c = r.
Proof.
  unfold find_entry. intros H. apply find_some in H. destruct H as [H1 H2].
  split; [exact H1 | apply String.eqb_eq; exact H2].
Qed.

(** Only a directory has something below it. *)
Lemma lookup_is_dir n rel t :
  lookup n rel = Some t -> rel <> [] -> node_is_dir n = true.
Proof.
  destruct rel as [|r rel]; [congruence|]. intros H _.
  destruct n as [nm sz text|nm sz es|nm sz|nm sz]; cbn in H;
    [discriminate | reflexivity | discriminate | discriminate].
Qed.

Lemma lookup_app rel1 : forall n rel2 t,
  lookup n (rel1 ++ rel2) = Some t ->
  exists d, lookup n rel1 = Some d /\ lookup d rel2 = Some t.
Proof.
  induction rel1 as [|r rel1 IH]; intros n rel2 t H.
  - exists n. split; [reflexivity | exact H].
  - cbn in H |- *. destruct (find_entry r (node_entries n)) as [c|]; [|discriminate].
    apply IH. exact H.
Qed.

Lemma below_nil (parent : Path) :
  {| root := root parent; parts := parts parent ++ [] |} = parent.
Proof. rewrite app_nil_r. destruct parent; reflexivity. Qed.

Lemma below_child (parent : Path) r rel :
  {| root := root (child parent r); parts := parts (child parent r) ++ rel |}
  = {| root := root parent; parts := parts parent ++ r :: rel |}.
Proof. cbn. rewrite <- app_assoc. reflexivity. Qed.

(** Every directory reached from [n] is among those [rglob] walks. *)
Lemma iterate_directories_complete rel : forall n parent d,
  lookup n rel = Some d -> node_is_dir d = true ->
  In ({| root := root parent; parts := parts parent ++ rel |}, d)
     (iterate_directories parent n).
Proof.
  induction rel as [|r rel IH]; intros n parent d Hl Hd.
  - cbn in Hl. inversion Hl; subst. rewrite below_nil.
    destruct d; try discriminate. cbn. left. reflexivity.
  - pose proof (lookup_is_dir _ _ _ Hl ltac:(discriminate)) as Hn.
    destruct (lookup_entry _ _ _ _ Hl) as (c & Hfind & Hc).
    destruct n as [nm sz text|nm sz es|nm sz|nm sz]; try discriminate.
    cbn [node_entries] in Hfind. apply find_entry_In in Hfind. destruct Hfind as [Hin Hname].
    cbn [iterate_directories]. right. apply in_flat_map. exists c. split; [exact Hin|].
    assert (Hcd : node_is_dir c = true).
    { destruct rel as [|r' rel'].
      - cbn in Hc. inversion Hc; subst. exact Hd.
      - eapply lookup_is_dir; [exact Hc | discriminate]. }
    rewrite Hcd, Hname. rewrite <- below_child. apply IH; assumption.
Qed.

Lemma glob_star_split rest rel :
  Props.glob_match ("**" :: rest) rel = true ->
  exists rel1 rel2, rel = (rel1 ++ rel2)%list /\ Props.glob_match rest rel2 = true.
Proof.
  induction rel as [|r rel IH]; cbn; intros H.
  - rewrite orb_false_r in H. exists [], []. split; [reflexivity | exact H].
  - apply orb_true_iff in H. destruct H as [H|H].
    + exists [], (r :: rel). split; [reflexivity | exact H].
    + destruct (IH H) as (rel1 & rel2 & -> & Hm).
      exists (r :: rel1), rel2. split; [reflexivity | exact Hm].
Qed.

(** A pattern that does not end in [**] matches no empty path. *)
Lemma glob_match_nil pattern_parts :
  pattern_parts <> [] -> last pattern_parts "" <> "**" ->
  Props.glob_match pattern_parts [] = false.
Proof.
  induction pattern_parts as [|pat rest IH]; intros Hne Hlast; [congruence|].
  cbn [Props.glob_match]. destruct (pat =? "**") eqn:Hstar; [|reflexivity].
  apply String.eqb_eq in Hstar. subst pat.
  destruct rest as [|q rest']; [cbn in Hlast; congruence|].
  rewrite IH; [reflexivity | discriminate | exact Hlast].
Qed.

Lemma fnmatch_literal_eq pat : forall s,
  is_wildcard_pattern pat = false -> fnmatch pat s = true -> s = pat.
Proof.
  unfold is_wildcard_pattern. intros s H.
  apply orb_false_iff in H. destruct H as [H Hb].
  apply orb_false_iff in H. destruct H as [Hs Hq]. clear Hb. revert s.
  induction pat as [|c pat IH]; intros s Hm.
  - destruct s; [reflexivity | discriminate].
  - apply contains_cons_false in Hs. destruct Hs as [Hs1 Hs2].
    apply contains_cons_false in Hq. destruct Hq as [Hq1 Hq2].
    cbn [fnmatch] in Hm.
    destruct (Ascii.eqb c "*") eqn:E1.
    { apply Ascii.eqb_eq in E1. subst c. destruct pat; cbn in Hs1; discriminate. }
    destruct (Ascii.eqb c "?") eqn:E2.
    { apply Ascii.eqb_eq in E2. subst c. destruct pat; cbn in Hq1; discriminate. }
    destruct s as [|d s]; [discriminate|].
    apply andb_true_iff in Hm. destruct Hm as [Hcd Hm].
    apply Ascii.eqb_eq in Hcd. subst d. f_equal. apply IH; assumption.
Qed.

Lemma path_eqb_eq p q : path_eqb p q = true -> p = q.
Proof. unfold path_eqb. destruct (Path_eq_dec p q); [auto | discriminate]. Qed.

Lemma dedup_go_complete ps : forall seen p,
  In p ps -> existsb (path_eqb p) seen = false -> In p (dedup_go seen ps).
Proof.
  induction ps as [|q ps IH]; intros seen p Hin Hseen; [contradiction|].
  cbn [dedup_go]. destruct (Path_eq_dec p q) as [->|Hne].
  - rewrite Hseen. left. reflexivity.
  - destruct Hin as [Heq|Hin]; [congruence|].
    destruct (existsb (path_eqb q) seen).
    + apply IH; assumption.
    + right. apply IH; [exact Hin|]. cbn [existsb]. rewrite Hseen.
      unfold path_eqb. destruct (Path_eq_dec p q); [contradiction | reflexivity].
Qed.

Lemma dironly_make_selector rest :
  dironly (make_selector rest) = match rest with [] => false | _ :: _ => true end.
Proof.
  destruct rest as [|q rest]; [reflexivity|]. cbn [make_selector].
  destruct (q =? "**"); [reflexivity|]. destruct (is_wildcard_pattern q); reflexivity.
Qed.

(** An entry that the rest of the pattern still has to go through is a
    directory. *)
Lemma passes_dironly rest c rel t :
  last rest "" <> "**" ->
  lookup c rel = Some t -> Props.glob_match rest rel = true ->
  dironly (make_selector rest) && negb (node_is_dir c) = false.
Proof.
  intros Hlast Hl Hm. rewrite dironly_make_selector.
  destruct rest as [|q rest]; [reflexivity|]. cbn [andb].
  assert (Hrel : rel <> []).
  { intros ->. rewrite glob_match_nil in Hm; [discriminate | discriminate | exact Hlast]. }
  rewrite (lookup_is_dir _ _ _ Hl Hrel). reflexivity.
Qed.

(** What lies in the tree and matches the pattern parts is yielded. *)
Lemma select_from_complete pattern_parts :
  last pattern_parts "" <> "**" ->
  forall parent n rel t,
    lookup n rel = Some t ->
    Props.glob_match pattern_parts rel = true ->
    In {| root := root parent; parts := parts parent ++ rel |}
       (select_from (make_selector pattern_parts) parent n).
Proof.
  induction pattern_parts as [|pat rest IH]; intros Hlast parent n rel t Hl Hm.
  - destruct rel; [|discriminate]. cbn. left. symmetry. apply below_nil.
  - assert (Hrest : last rest "" <> "**").
    { destruct rest as [|q rest']; [cbn; discriminate | exact Hlast]. }
    specialize (IH Hrest).
    cbn [make_selector]. destruct (pat =? "**") eqn:Hstar.
    + apply String.eqb_eq in Hstar. subst pat.
      assert (Hne : rest <> []) by (intros ->; cbn in Hlast; congruence).
      apply glob_star_split in Hm. destruct Hm as (rel1 & rel2 & -> & Hm).
      apply lookup_app in Hl. destruct Hl as (d & Hd & Ht).
      assert (Hrel2 : rel2 <> []).
      { intros ->. rewrite glob_match_nil in Hm; [discriminate | exact Hne | exact Hrest]. }
      pose proof (lookup_is_dir _ _ _ Ht Hrel2) as Hdir.
      cbn [select_from]. apply dedup_go_complete; [|reflexivity].
      apply in_flat_map.
      exists ({| root := root parent; parts := parts parent ++ rel1 |}, d).
      split; [apply iterate_directories_complete; assumption|].
      cbn [fst snd].
      replace {| root := root parent; parts := parts parent ++ rel1 ++ rel2 |}
        with {| root := root {| root := root parent; parts := parts parent ++ rel1 |};
                parts := parts {| root := root parent; parts := parts parent ++ rel1 |}
                         ++ rel2 |}
        by (cbn; rewrite app_assoc; reflexivity).
      eapply IH; eassumption.
    + destruct rel as [|r rel]; [cbn in Hm; rewrite Hstar in Hm; discriminate|].
      cbn [Props.glob_match] in Hm. rewrite Hstar in Hm.
      apply andb_true_iff in Hm. destruct Hm as [Hf Hm].
      destruct (lookup_entry _ _ _ _ Hl) as (c & Hfind & Hc).
      pose proof (passes_dironly rest c rel t Hrest Hc Hm) as Hpass.
      destruct (is_wildcard_pattern pat) eqn:Hw.
      * cbn [select_from]. apply find_entry_In in Hfind. destruct Hfind as [Hin Hname].
        apply in_flat_map. exists c. split; [exact Hin|].
        rewrite Hpass, Hname, Hf. rewrite <- below_child. eapply IH; eassumption.
      * apply (fnmatch_literal_eq _ _ Hw) in Hf. subst r.
        cbn [select_from]. rewrite Hfind, Hpass.
        rewrite <- below_child. eapply IH; eassumption.
Qed.

Lemma is_prefix_skipn xs : forall ys,
  is_prefix xs ys = true -> ys = (xs ++ skipn (List.length xs) ys)%list.
Proof.
  induction xs as [|x xs IH]; intros ys H; [reflexivity|].
  destruct ys as [|y ys]; [discriminate|]. cbn in H.
  apply andb_true_iff in H. destruct H as [Hxy H].
  apply String.eqb_eq in Hxy. subst y. cbn. f_equal. apply IH. exact H.
Qed.

(** [rglob] yields every path of the tree that matches its pattern under
    the directory, for a pattern that does not end in [**]. *)
Lemma rglob_complete fs directory pattern p :
  last ("**" :: parse_parts pattern) "" <> "**" ->
  exists_ fs p = true ->
  Props.path_matches directory pattern p = true ->
  In p (rglob fs directory pattern).
Proof.
  intros Hlast Hex Hm. unfold Props.path_matches in Hm.
  apply andb_true_iff in Hm. destruct Hm as [Hm Hglob].
  apply andb_true_iff in Hm. destruct Hm as [Hroot Hpre].
  apply eqb_prop in Hroot. apply is_prefix_skipn in Hpre.
  set (rel := skipn (List.length (parts directory)) (parts p)) in *.
  assert (Hp : p = {| root := root directory; parts := parts directory ++ rel |}).
  { destruct p as [rt ps]. cbn in *. subst rt. rewrite <- Hpre. reflexivity. }
  assert (Hrel : rel <> []).
  { intros E. rewrite E in Hglob.
    rewrite glob_match_nil in Hglob; [discriminate | discriminate | exact Hlast]. }
  unfold exists_, resolve in Hex.
  destruct (lookup (fs_root fs) (parts (absolute fs p))) as [t|] eqn:Hl; [|discriminate].
  assert (Habs : parts (absolute fs p) = (parts (absolute fs directory) ++ rel)%list).
  { rewrite Hp. unfold absolute. cbn [root parts].
    destruct (root directory); cbn [parts]; [reflexivity | apply app_assoc]. }
  rewrite Habs in Hl. apply lookup_app in Hl. destruct Hl as (n & Hn & Ht).
  unfold rglob, resolve. rewrite Hn.
  rewrite (lookup_is_dir _ _ _ Ht Hrel).
  rewrite Hp. eapply select_from_complete; eassumption.
Qed.

Lemma dict_has_append k key q d :
  Common.dict_has k (Common.dict_append key q d) = Common.dict_has k d.
Proof.
  unfold Common.dict_has, Common.dict_append.
  induction d as [|[k' files] d IH]; [reflexivity|].
  cbn [map existsb fst]. rewrite IH. destruct (k' =? key); reflexivity.
Qed.

Lemma dict_append_keeps key q d p :
  In p (Common.dict_paths d) -> In p (Common.dict_paths (Common.dict_append key q d)).
Proof.
  unfold Common.dict_paths, Common.dict_append.
  induction d as [|[k files] d IH]; cbn; intros Hin; [contradiction|].
  apply in_app_or in Hin. apply in_or_app. destruct Hin as [Hin|Hin].
  - left. destruct (k =? key); cbn; [apply in_or_app; left|]; exact Hin.
  - right. apply IH. exact Hin.
Qed.

Lemma dict_append_adds key q d :
  Common.dict_has key d = true ->
  In q (Common.dict_paths (Common.dict_append key q d)).
Proof.
  unfold Common.dict_paths, Common.dict_append, Common.dict_has.
  induction d as [|[k files] d IH]; cbn; intros H; [discriminate|].
  apply in_or_app. destruct (k =? key).
  - left. cbn. apply in_or_app. right. left. reflexivity.
  - right. apply IH. exact H.
Qed.

Lemma classify_file_has fs d q k :
  Common.dict_has k (Common.classify_file fs d q) = Common.dict_has k d.
Proof.
  unfold Common.classify_file. destruct (is_file fs q); [|reflexivity].
  destruct (Common.dict_has _ d); apply dict_has_append.
Qed.

Lemma classify_file_keeps fs d q p :
  In p (Common.dict_paths d) -> In p (Common.dict_paths (Common.classify_file fs d q)).
Proof.
  unfold Common.classify_file. intros H. destruct (is_file fs q); [|exact H].
  destruct (Common.dict_has _ d); apply dict_append_keeps; exact H.
Qed.

Lemma classify_file_adds fs d q :
  Common.dict_has "other" d = true -> is_file fs q = true ->
  In q (Common.dict_paths (Common.classify_file fs d q)).
Proof.
  unfold Common.classify_file. intros Hother ->.
  destruct (Common.dict_has (PyStr.lstrip_dot (PyStr.lower (suffix q))) d) eqn:Hext;
    apply dict_append_adds; assumption.
Qed.

Lemma classify_files_has fs files : forall d k,
  Common.dict_has k (fold_left (Common.classify_file fs) files d) = Common.dict_has k d.
Proof.
  induction files as [|q files IH]; intros d k; [reflexivity|].
  cbn [fold_left]. rewrite IH. apply classify_file_has.
Qed.

Lemma classify_files_keeps fs files : forall d p,
  In p (Common.dict_paths d) ->
  In p (Common.dict_paths (fold_left (Common.classify_file fs) files d)).
Proof.
  induction files as [|q files IH]; intros d p H; [exact H|].
  cbn [fold_left]. apply IH. apply classify_file_keeps. exact H.
Qed.

Lemma classify_files_adds fs files : forall d p,
  Common.dict_has "other" d = true -> In p files -> is_file fs p = true ->
  In p (Common.dict_paths (fold_left (Common.classify_file fs) files d)).
Proof.
  induction files as [|q files IH]; intros d p Hother Hin Hf; [contradiction|].
  cbn [fold_left]. destruct Hin as [->|Hin].
  - apply classify_files_keeps. apply classify_file_adds; assumption.
  - apply IH; [rewrite classify_file_has; exact Hother | exact Hin | exact Hf].
Qed.

(** A regular file that [rglob] yields for one of the patterns gets into a
    bucket, as long as there is an ['other'] bucket to fall back on. *)
Lemma discover_patterns_adds fs directory pats : forall d pattern p,
  Common.dict_has "other" d = true ->
  In pattern pats -> In p (rglob fs directory pattern) -> is_file fs p = true ->
  In p (Common.dict_paths
          (fold_left (fun agent_files pattern =>
                        fold_left (Common.classify_file fs)
                                  (rglob fs directory pattern) agent_files) pats d)).
Proof.
  induction pats as [|pat pats IH]; intros d pattern p Hother Hpat Hin Hf; [contradiction|].
  cbn [fold_left]. destruct Hpat as [->|Hpat].
  - clear IH.
    assert (H : In p (Common.dict_paths
                        (fold_left (Common.classify_file fs) (rglob fs directory pattern) d)))
      by (apply classify_files_adds; assumption).
    revert H. generalize (fold_left (Common.classify_file fs) (rglob fs directory pattern) d).
    induction pats as [|pat' pats IH]; intros d' H; [exact H|].
    cbn [fold_left]. apply IH. apply classify_files_keeps. exact H.
  - eapply IH; [rewrite classify_files_has; exact Hother | exact Hpat | exact Hin | exact Hf].
Qed.

Lemma patterns_end_plain pattern :
  In pattern Common.patterns -> last ("**" :: parse_parts pattern) "" <> "**".
Proof.
  intros H. repeat (destruct H as [<-|H]; [vm_compute; discriminate|]). contradiction.
Qed.

Lemma is_file_exists fs p : is_file fs p = true -> exists_ fs p = true.
Proof. unfold is_file, exists_. destruct (resolve fs p); [reflexivity | discriminate]. Qed.

(** X5: the converse of C7.  Every regular file under the searched
    directory whose path below it matches one of the declared patterns is
    in some bucket of [discover_agents], in both scripts: no match is
    missed. *)
Theorem discover_agents_finds_every_match
        (fs : FS) (directory : Path) (pattern : string) (p : Path) :
  In pattern Common.patterns ->
  is_file fs p = true ->
  Props.path_matches directory pattern p = true ->
  (exists key files,
      In (key, files) (Iterative.discover_agents fs directory) /\ In p files)
  /\ (exists key files,
         In (key, files) (Local.discover_agents fs directory) /\ In p files).
Proof.
  intros Hpat Hf Hm.
  assert (H : In p (Common.dict_paths (Common.discover_agents fs directory))).
  { unfold Common.discover_agents.
    apply (discover_patterns_adds fs directory Common.patterns _ pattern p);
      [reflexivity | exact Hpat | | exact Hf].
    apply rglob_complete;
      [apply patterns_end_plain; exact Hpat | apply is_file_exists; exact Hf | exact Hm]. }
  unfold Common.dict_paths in H. apply in_flat_map in H. destruct H as [[key files] [H1 H2]].
  split; exists key, files; split; assumption.
Qed.

Lemma discover_agents_finds_every_match_witness :
  exists key files,
    In (key, files) (Iterative.discover_agents Demo.fs Demo.directory)
    /\ In Demo.big files.
Proof.
  exact (proj1 (discover_agents_finds_every_match Demo.fs Demo.directory "*system*.md"
                  Demo.big
                  ltac:(vm_compute; tauto) ltac:(reflexivity) ltac:(vm_compute; reflexivity))).
Defined.

End GlobFacts.

(* ================================================================= *)
(** ** Buckets and the context *)

Module ContextFacts.
Import PathLib.
Import Invariants.
Import DiscoveryFacts.
Import GlobFacts.
#[local] Open Scope string_scope.

Lemma dict_append_keys key q d :
  map fst (Common.dict_append key q d) = map fst d.
Proof.
  unfold Common.dict_append. induction d as [|[k files] d IH]; [reflexivity|].
  cbn [map fst]. rewrite IH. destruct (k =? key); reflexivity.
Qed.

Lemma dict_append_entry key q d k fl :
  In (k, fl) (Common.dict_append key q d) ->
  In (k, fl) d \/ (k = key /\ exists fl0, In (k, fl0) d /\ fl = (fl0 ++ [q])%list).
Proof.
  unfold Common.dict_append. induction d as [|[k' files] d IH]; cbn; intros H; [contradiction|].
  destruct H as [H|H].
  - destruct (k' =? key) eqn:E.
    + inversion H; subst. apply String.eqb_eq in E. right. split; [exact E|].
      exists files. split; [left; reflexivity | reflexivity].
    + left. left. exact H.
  - destruct (IH H) as [H'|(Hk & fl0 & Hin & Hfl)].
    + left. right. exact H'.
    + right. split; [exact Hk|]. exists fl0. split; [right; exact Hin | exact Hfl].
Qed.

(** The bucket [classify_file] picks for a path. *)
Lemma classify_file_entry fs d q k fl p :
  In (k, fl) (Common.classify_file fs d q) -> In p fl ->
  (exists fl0, In (k, fl0) d /\ In p fl0)
  \/ (p = q
      /\ k = (let ext := PyStr.lstrip_dot (PyStr.lower (suffix q)) in
              if Common.dict_has ext d then ext else "other")).
Proof.
  unfold Common.classify_file. intros H Hp.
  destruct (is_file fs q); [|left; exists fl; auto].
  cbv zeta.
  destruct (Common.dict_has (PyStr.lstrip_dot (PyStr.lower (suffix q))) d);
    apply dict_append_entry in H;
    (destruct H as [H|(Hk & fl0 & Hin & ->)]; [left; exists fl; auto|]);
    (apply in_app_or in Hp; destruct Hp as [Hp|[<-|[]]];
     [left; exists fl0; auto | right; auto]).
Qed.

Lemma classify_file_keys fs d q :
  map fst (Common.classify_file fs d q) = map fst d.
Proof.
  unfold Common.classify_file. destruct (is_file fs q); [|reflexivity].
  destruct (Common.dict_has _ d); apply dict_append_keys.
Qed.

Lemma dict_has_keys k d d' :
  map fst d = map fst d' -> Common.dict_has k d = Common.dict_has k d'.
Proof.
  unfold Common.dict_has. revert d'.
  induction d as [|kv d IH]; intros [|kv' d'] H; try discriminate; [reflexivity|].
  cbn in H. inversion H. cbn. rewrite (IH d') by assumption. congruence.
Qed.

Lemma classify_file_bucketed fs d0 d q :
  well_bucketed d0 d -> well_bucketed d0 (Common.classify_file fs d q).
Proof.
  intros [Hk Hb]. split; [rewrite classify_file_keys; exact Hk|].
  intros k fl p Hin Hp.
  destruct (classify_file_entry _ _ _ _ _ _ Hin Hp) as [(fl0 & H1 & H2)|[-> H]].
  - eapply Hb; eassumption.
  - rewrite H. cbv zeta. rewrite (dict_has_keys _ d d0 Hk). reflexivity.
Qed.

Lemma discover_bucketed fs directory pats : forall d0 d,
  well_bucketed d0 d ->
  well_bucketed d0
    (fold_left (fun agent_files pattern =>
                  fold_left (Common.classify_file fs)
                            (rglob fs directory pattern) agent_files) pats d).
Proof.
  induction pats as [|pat pats IH]; intros d0 d H; [exact H|].
  cbn [fold_left]. apply IH.
  generalize (rglob fs directory pat). intros files. revert d H.
  induction files as [|q files IHf]; intros d H; [exact H|].
  cbn [fold_left]. apply IHf. apply classify_file_bucketed. exact H.
Qed.

Lemma bucket_choice ext :
  (if Common.dict_has ext Common.empty_agent_files then ext else "other")
  = (if existsb (String.eqb ext) ["json"; "yaml"; "md"; "txt"] then ext else "other").
Proof.
  unfold Common.dict_has, Common.empty_agent_files. cbn [existsb fst].
  rewrite (String.eqb_sym "json"), (String.eqb_sym "yaml"),
          (String.eqb_sym "md"), (String.eqb_sym "txt"), (String.eqb_sym "other").
  destruct (ext =? "json"); [reflexivity|].
  destruct (ext =? "yaml"); [reflexivity|].
  destruct (ext =? "md"); [reflexivity|].
  destruct (ext =? "txt"); [reflexivity|].
  cbn [orb]. rewrite orb_false_r.
  destruct (ext =? "other") eqn:E; [apply String.eqb_eq in E; exact E | reflexivity].
Qed.

(** X6: [discover_agents] keeps exactly the five buckets [json], [yaml],
    [md], [txt] and [other], and a file sits in the bucket named by its
    lower-cased extension when that is one of the first four, otherwise in
    [other] - so a [.yml] file is listed under [other], not [yaml].  Both
    scripts. *)
Theorem files_are_bucketed_by_extension
        (fs : FS) (directory : Path) (key : string) (files : list Path) (p : Path) :
  In (key, files) (Iterative.discover_agents fs directory)
  \/ In (key, files) (Local.discover_agents fs directory) ->
  In p files ->
  let ext := PyStr.lstrip_dot (PyStr.lower (suffix p)) in
  key = (if existsb (String.eqb ext) ["json"; "yaml"; "md"; "txt"] then ext else "other")
  /\ map fst (Iterative.discover_agents fs directory) = ["json"; "yaml"; "md"; "txt"; "other"]
  /\ map fst (Local.discover_agents fs directory) = ["json"; "yaml"; "md"; "txt"; "other"].
Proof.
  intros Hbucket Hp ext.
  assert (H : well_bucketed Common.empty_agent_files (Common.discover_agents fs directory)).
  { apply discover_bucketed. split; [reflexivity|]. intros k fl q [H|[H|[H|[H|[H|[]]]]]];
      inversion H; subst; contradiction. }
  destruct H as [Hk Hb].
  split; [|split; exact Hk].
  rewrite <- bucket_choice. apply (Hb key files p); [|exact Hp].
  destruct Hbucket; assumption.
Qed.

Lemma files_are_bucketed_by_extension_witness :
  "json" = (if existsb (String.eqb (PyStr.lstrip_dot (PyStr.lower (suffix Demo.helper))))
                       ["json"; "yaml"; "md"; "txt"]
            then PyStr.lstrip_dot (PyStr.lower (suffix Demo.helper)) else "other").
Proof.
  exact (proj1 (files_are_bucketed_by_extension Demo.fs Demo.directory "json"
                  [Demo.helper; Demo.helper] Demo.helper
                  ltac:(left; vm_compute; left; reflexivity)
                  ltac:(left; reflexivity))).
Defined.

(** On a regular file the read cannot block. *)
Lemma read_file_safe_gives_text fs file_path max_size :
  is_file fs file_path = true ->
  exists s, Common.read_file_safe fs file_path max_size = Return (Some s).
Proof.
  unfold is_file, Common.read_file_safe, stat_size, read_text.
  destruct (resolve fs file_path) as [n|]; cbn; [|discriminate].
  intros Hfile.
  destruct (node_size n >? max_size)%Z; cbn; [eauto|].
  destruct n as [nm sz [t|]|nm sz es|nm sz|nm sz]; cbn in *; try discriminate; eauto.
Qed.

Lemma path_matches_below directory pattern p :
  Props.path_matches directory pattern p = true -> below directory p.
Proof.
  unfold Props.path_matches, below, relative_to. intros H.
  apply andb_true_iff in H. destruct H as [H _]. rewrite H. eauto.
Qed.

Lemma discovered_below fs directory p :
  In p (Common.dict_paths (Common.discover_agents fs directory)) -> below directory p.
Proof.
  unfold Common.discover_agents. intros H. apply discover_patterns_In in H.
  destruct H as [H|(_ & pattern & _ & H)]; [cbn in H; contradiction|].
  apply rglob_sound in H. eapply path_matches_below. exact H.
Qed.

Lemma inventory_lines_returns directory files :
  (forall p, In p files -> below directory p) ->
  exists lines, Common.inventory_lines directory files = Return lines.
Proof.
  induction files as [|q files IH]; intros H; [cbn; eauto|].
  destruct (H q (or_introl eq_refl)) as [rel Hrel].
  destruct IH as [more Hmore]; [intros p Hp; apply H; right; exact Hp|].
  cbn [Common.inventory_lines]. rewrite Hrel. cbn [obind]. rewrite Hmore. cbn. eauto.
Qed.

Lemma firstn_keeps_In {A} n (l : list A) x : In x (firstn n l) -> In x l.
Proof.
  revert l. induction n as [|n IH]; intros [|a l] H; cbn in H; try contradiction.
  destruct H as [->|H]; [left; reflexivity | right; apply IH; exact H].
Qed.

Lemma inventory_returns directory items :
  (forall p, In p (Common.dict_paths items) -> below directory p) ->
  exists inv, Common.inventory directory items = Return inv.
Proof.
  induction items as [|[file_type files] items IH]; intros H; [cbn; eauto|].
  destruct IH as [more Hmore].
  { intros p Hp. apply H. unfold Common.dict_paths. cbn. apply in_or_app. right. exact Hp. }
  cbn [Common.inventory]. destruct files as [|f files].
  - cbn [obind]. rewrite Hmore. cbn. eauto.
  - destruct (inventory_lines_returns directory (firstn 10 (f :: files))) as [lines Hl].
    { intros p Hp. apply H. unfold Common.dict_paths. cbn [flat_map snd].
      apply in_or_app. left. eapply firstn_keeps_In. exact Hp. }
    rewrite Hl. cbn [obind]. rewrite Hmore. cbn. eauto.
Qed.

Lemma sample_files_returns fs directory file_type files :
  (forall p, In p files -> below directory p /\ is_file fs p = true) ->
  forall context sample_count,
  exists r, Common.sample_files fs directory file_type files context sample_count = Return r.
Proof.
  induction files as [|q files IH]; intros H context sample_count; [cbn; eauto|].
  cbn [Common.sample_files].
  destruct (Common.max_samples <=? sample_count)%nat; [eauto|].
  destruct (H q (or_introl eq_refl)) as [[rel Hrel] Hfile]. rewrite Hrel. cbn [obind].
  destruct (read_file_safe_gives_text fs q Common.default_max_size Hfile) as [s Hs].
  rewrite Hs. cbn [obind Common.take_2000].
  apply IH. intros p Hp. apply H. right. exact Hp.
Qed.

Lemma samples_returns fs directory items :
  (forall p, In p (Common.dict_paths items) -> below directory p /\ is_file fs p = true) ->
  forall context sample_count,
  exists text, Common.samples fs directory items context sample_count = Return text.
Proof.
  induction items as [|[file_type files] items IH]; intros H context sample_count;
    [cbn; eauto|].
  cbn [Common.samples].
  destruct (Common.max_samples <=? sample_count)%nat; [eauto|].
  destruct (sample_files_returns fs directory file_type (firstn 2 files)) with
    (context := context) (sample_count := sample_count) as [r Hr].
  { intros p Hp. apply H. unfold Common.dict_paths. cbn [flat_map snd].
    apply in_or_app. left. eapply firstn_keeps_In. exact Hp. }
  rewrite Hr. cbn [obind]. apply IH.
  intros p Hp. apply H. unfold Common.dict_paths. cbn. apply in_or_app. right. exact Hp.
Qed.

(** [build_context] returns as soon as every listed path is a regular
    file under the directory. *)
Lemma build_context_returns fs directory agent_files :
  (forall p, In p (Common.dict_paths agent_files) ->
             below directory p /\ is_file fs p = true) ->
  exists context, Common.build_context fs directory agent_files = Return context.
Proof.
  intros H. unfold Common.build_context.
  destruct (inventory_returns directory agent_files (fun p Hp => proj1 (H p Hp)))
    as [inv Hinv].
  rewrite Hinv. cbn [obind]. apply samples_returns. exact H.
Qed.

Lemma discovered_is_file fs directory p :
  In p (Common.dict_paths (Common.discover_agents fs directory)) -> is_file fs p = true.
Proof.
  unfold Common.discover_agents. intros H. apply discover_patterns_In in H.
  destruct H as [H|(Hf & _)]; [cbn in H; contradiction | exact Hf].
Qed.

Lemma build_context_on_discovered fs directory :
  exists context,
    Common.build_context fs directory (Common.discover_agents fs directory)
    = Return context.
Proof.
  apply build_context_returns. intros p Hp.
  split; [eapply discovered_below | eapply discovered_is_file]; exact Hp.
Qed.

(** X7: on the files [discover_agents] returns for a directory,
    [build_context] for that directory always returns a context: every
    [relative_to] succeeds and no sample is [None].  Both scripts. *)
Theorem build_context_accepts_discovered_files (fs : FS) (directory : Path) :
  exists context,
    Iterative.build_context fs directory (Iterative.discover_agents fs directory)
    = Return context
    /\ Local.build_context fs directory (Local.discover_agents fs directory)
       = Return context.
Proof.
  destruct (build_context_on_discovered fs directory) as [context H].
  exists context. split; exact H.
Qed.

End ContextFacts.

(* ================================================================= *)
(** ** The reply of the backend *)


Module ReplyFacts.
Import PathLib.
Import Invariants.
Import Iterative.
Import TextFacts.
Import ContextFacts.
Import ReviewFacts.
#[local] Open Scope string_scope.

Lemma find_from_first c pre rest : forall i,
  PyStr.all_chars (fun d => negb (Ascii.eqb d c)) pre = true ->
  PyStr.find_from c (pre ++ String c rest) i = (i + Z.of_nat (String.length pre))%Z.
Proof.
  induction pre as [|d pre IH]; intros i H.
  - cbn. rewrite Ascii.eqb_refl. lia.
  - cbn in H. apply andb_true_iff in H. destruct H as [Hd H].
    apply negb_true_iff in Hd. cbn [append PyStr.find_from String.length]. rewrite Hd.
    rewrite IH by exact H. lia.
Qed.

Lemma rfind_from_none c post : forall i last,
  PyStr.all_chars (fun d => negb (Ascii.eqb d c)) post = true ->
  PyStr.rfind_from c post i last = last.
Proof.
  induction post as [|d post IH]; intros i last H; [reflexivity|].
  cbn in H. apply andb_true_iff in H. destruct H as [Hd H].
  apply negb_true_iff in Hd. cbn [PyStr.rfind_from]. rewrite Hd. apply IH. exact H.
Qed.

Lemma rfind_from_last c x post : forall i last,
  PyStr.all_chars (fun d => negb (Ascii.eqb d c)) post = true ->
  PyStr.rfind_from c (x ++ String c post) i last = (i + Z.of_nat (String.length x))%Z.
Proof.
  induction x as [|d x IH]; intros i last H.
  - cbn [append PyStr.rfind_from String.length]. rewrite Ascii.eqb_refl.
    rewrite rfind_from_none by exact H. lia.
  - cbn [append PyStr.rfind_from String.length]. rewrite IH by exact H. lia.
Qed.

Lemma substring_skip pre : forall n s,
  substring (String.length pre) n (pre ++ s) = substring 0 n s.
Proof. induction pre as [|d pre IH]; intros n s; [reflexivity | cbn; apply IH]. Qed.

Lemma substring_prefix a : forall b, substring 0 (String.length a) (a ++ b) = a.
Proof.
  induction a as [|d a IH]; intros b; [destruct b; reflexivity|].
  cbn. rewrite IH. reflexivity.
Qed.

Lemma str_length_app (a b : string) :
  String.length (a ++ b) = String.length a + String.length b.
Proof. induction a as [|d a IH]; cbn; [reflexivity | rewrite IH; reflexivity]. Qed.

(** X8: when the stripped reply holds a [[] and, after it, a []],
    [generate_agent_suggestions] decodes exactly the text from the first
    [[] to the last []], whatever surrounds it; it returns the decoded
    suggestions, or the empty list when decoding fails, after one backend
    call. *)
Theorem suggestions_are_cut_from_first_to_last_bracket
        (json_loads : string -> exc + list Agent) (context : string) (w : World)
        (reply : string) (g : list (exc + string)) (pre body post : string) :
  w_generate w = inr reply :: g ->
  PyStr.strip reply = pre ++ "[" ++ body ++ "]" ++ post ->
  PyStr.all_chars (fun c => negb (Ascii.eqb c "[")) pre = true ->
  PyStr.all_chars (fun c => negb (Ascii.eqb c "]")) post = true ->
  generate_agent_suggestions json_loads context w
  = (Return match json_loads ("[" ++ body ++ "]") with
            | inr suggestions => suggestions
            | inl _ => []
            end,
     set_generate g (log CalledGenerate w)).
Proof.
  intros Hgen Hreply Hpre Hpost.
  assert (Hfind : PyStr.find "[" (PyStr.strip reply) = Z.of_nat (String.length pre)).
  { rewrite Hreply. unfold PyStr.find.
    change (pre ++ "[" ++ body ++ "]" ++ post)
      with (pre ++ String "[" (body ++ "]" ++ post)).
    rewrite find_from_first by exact Hpre. lia. }
  assert (Hrfind : PyStr.rfind "]" (PyStr.strip reply)
                   = Z.of_nat (String.length pre + 1 + String.length body)).
  { rewrite Hreply. unfold PyStr.rfind.
    replace (pre ++ "[" ++ body ++ "]" ++ post)
      with ((pre ++ "[" ++ body) ++ String "]" post)
      by (rewrite !str_app_assoc; reflexivity).
    rewrite rfind_from_last by exact Hpost.
    rewrite !str_length_app. cbn [String.length]. lia. }
  assert (Hslice : PyStr.slice (PyStr.strip reply)
                     (Z.of_nat (String.length pre))
                     (Z.of_nat (String.length pre + 1 + String.length body) + 1)
                   = "[" ++ body ++ "]").
  { unfold PyStr.slice. rewrite Hreply, Nat2Z.id.
    replace (Z.to_nat (Z.of_nat (String.length pre + 1 + String.length body) + 1
                       - Z.of_nat (String.length pre)))
      with (String.length ("[" ++ body ++ "]"))
      by (rewrite !str_length_app; cbn [String.length]; lia).
    rewrite substring_skip.
    replace ("[" ++ body ++ "]" ++ post) with (("[" ++ body ++ "]") ++ post)
      by (rewrite !str_app_assoc; reflexivity).
    apply substring_prefix. }
  unfold generate_agent_suggestions, try_catch, bind, ollama_generate.
  cbn [w_generate log]. rewrite Hgen.
  rewrite Hfind, Hrfind, Hslice.
  replace (0 <=? Z.of_nat (String.length pre))%Z with true by (symmetry; apply Z.leb_le; lia).
  replace (Z.of_nat (String.length pre)
           <? Z.of_nat (String.length pre + 1 + String.length body) + 1)%Z
    with true by (symmetry; apply Z.ltb_lt; lia).
  cbn [andb].
  destruct (json_loads ("[" ++ body ++ "]")) as [e|suggestions]; [|reflexivity].
  unfold suggestions_failed, raise, ret. destruct (exc_kind e); reflexivity.
Qed.

Lemma suggestions_are_cut_from_first_to_last_bracket_witness :
  fst (generate_agent_suggestions Demo.json_loads Demo.context
         (Demo.world Demo.good_reply []))
  = Return [Demo.router; Demo.logger].
Proof.
  exact (f_equal fst
           (suggestions_are_cut_from_first_to_last_bracket
              Demo.json_loads Demo.context (Demo.world Demo.good_reply [])
              Demo.good_reply [inr "# Role"] "Here you go: " "router, logger" " Done."
              eq_refl eq_refl eq_refl eq_refl)).
Defined.

(** X9: when suggestion generation comes back empty (the backend failed,
    the reply held no array or could not be decoded), [run_iterative]
    returns normally without presenting anything, reading any input,
    changing the decisions or writing any file. *)
Theorem run_without_suggestions_is_silent
        (json_loads : string -> exc + list Agent) (directory : Path) (st : State) :
  (forall context,
      fst (generate_agent_suggestions json_loads context (world st)) = Return []) ->
  let r := run_iterative json_loads directory st in
  fst r = Return tt
  /\ self (snd r) = self st
  /\ w_stdin (world (snd r)) = w_stdin (world st)
  /\ w_files (world (snd r)) = w_files (world st)
  /\ presented (world (snd r)) = presented (world st).
Proof.
  intros Hgen. cbv zeta. unfold run_iterative.
  rewrite (bind_return _ _ _ st st) by reflexivity.
  destruct (Common.total_files (discover_agents (w_fs (world st)) directory) =? 0)%nat.
  { repeat split. }
  destruct (build_context_on_discovered (w_fs (world st)) directory) as [context Hctx].
  rewrite (bind_return _ _ _ context st)
    by (unfold lift_outcome, build_context, discover_agents; rewrite Hctx; reflexivity).
  pose proof (Hgen context) as Hnil.
  pose proof (generate_frame json_loads context (world st)) as G. cbv zeta in G.
  destruct (generate_agent_suggestions json_loads context (world st)) as [o w1] eqn:E.
  cbn [fst snd] in *. subst o. destruct G as (G1 & G2 & G3 & _).
  rewrite (bind_return _ _ _ [] (MkState (self st) w1))
    by (destruct st as [slf w]; apply lift_world_run; exact E).
  cbn. repeat split; assumption.
Qed.

Lemma run_without_suggestions_is_silent_witness :
  fst (run_iterative Demo.json_loads Demo.directory
         (MkState (init "m" false) (Demo.world "I cannot help with that." ["y"])))
  = Return tt.
Proof.
  exact (proj1 (run_without_suggestions_is_silent Demo.json_loads Demo.directory
                  (MkState (init "m" false) (Demo.world "I cannot help with that." ["y"]))
                  (fun context => eq_refl))).
Defined.

End ReplyFacts.

(* ================================================================= *)
(** ** The batch script *)

Module BatchFacts.
Import PathLib.
Import Invariants.
Import Local.
Import TextFacts.
Import ContextFacts.
Import ReviewFacts.
#[local] Open Scope string_scope.

(** The prompt loop writes files and nothing else: it does not read the
    input, does not call the backend, never leaves through [sys.exit] and
    cannot block. *)
Lemma save_prompts_contained slf agent_prompts : forall i w,
  let r := save_prompts slf i agent_prompts w in
  (forall status, fst r <> SysExit status)
  /\ fst r <> Hang
  /\ w_stdin (snd r) = w_stdin w
  /\ w_generate (snd r) = w_generate w
  /\ exists new, w_files (snd r) = (new ++ w_files w)%list.
Proof.
  induction agent_prompts as [|agent_prompt rest IH]; intros i w.
  - cbn. split; [intros status; discriminate|]. split; [discriminate|].
    repeat split. exists []. reflexivity.
  - cbn [save_prompts]. destruct (PyStr.strip agent_prompt =? ""); [apply IH|].
    set (target := prompt_file slf i (PyStr.strip agent_prompt)).
    unfold bind at 1. unfold write_file, modify.
    set (w1 := log _ _).
    unfold bind, lift_outcome.
    unfold relative_to.
    destruct (Bool.eqb (root target) (root (findings_dir slf))
              && is_prefix (parts (findings_dir slf)) (parts target)).
    + pose proof (IH (S i) w1) as H. cbv zeta in H |- *.
      destruct H as (H1 & H0 & H2 & H3 & new & H4).
      split; [exact H1|]. split; [exact H0|]. split; [exact H2|]. split; [exact H3|].
      exists (new ++ [(target, String.concat "" [PyStr.strip agent_prompt])])%list.
      subst w1. rewrite H4. cbn. rewrite <- app_assoc. reflexivity.
    + cbn. split; [intros status; discriminate|]. split; [discriminate|]. repeat split.
      eexists [_]. reflexivity.
Qed.

(** [generate_system_prompts] keeps every failure to itself. *)
Lemma generate_system_prompts_contained (slf : Analyzer) (analysis : string) (w : World) :
  let r := generate_system_prompts slf analysis w in
  fst r = Return tt
  /\ w_stdin (snd r) = w_stdin w
  /\ w_generate (snd r) = tl (w_generate w)
  /\ (exists new, w_files (snd r) = (new ++ w_files w)%list)
  /\ ((forall text g, w_generate w <> inr text :: g) -> w_files (snd r) = w_files w).
Proof.
  unfold generate_system_prompts, try_catch, bind, ollama_generate. cbn [w_generate log].
  destruct (w_generate w) as [|[e|text] g] eqn:Hgen.
  - cbn. repeat split; try (exists []; reflexivity); exact Hgen.
  - cbn. repeat split; try (exists []; reflexivity).
  - pose proof (save_prompts_contained slf (PyStr.split "---AGENT---" text) 1
                  (set_generate g (log CalledGenerate w))) as H.
    cbv zeta in H. destruct H as (H1 & H0 & H2 & H3 & new & H4).
    destruct (save_prompts slf 1 (PyStr.split "---AGENT---" text)
                (set_generate g (log CalledGenerate w))) as [[[]|e|n|] w'] eqn:Hsave;
      cbn [fst snd] in *.
    + split; [reflexivity|]. split; [exact H2|]. split; [exact H3|].
      split; [exists new; exact H4|]. intros Hno. exfalso. eapply Hno. reflexivity.
    + cbn. split; [reflexivity|]. split; [exact H2|]. split; [exact H3|].
      split; [exists new; exact H4|]. intros Hno. exfalso. eapply Hno. reflexivity.
    + exfalso. eapply H1. reflexivity.
    + exfalso. apply H0. reflexivity.
Qed.

Lemma analyze_with_ollama_returns w :
  exists analysis,
    analyze_with_ollama w
    = (Return analysis,
       match w_generate w with
       | [] => log CalledGenerate w
       | _ :: g => set_generate g (log CalledGenerate w)
       end)
    /\ (forall e g, w_generate w = inl e :: g ->
        analysis = "Error during analysis: " ++ exc_str e).
Proof.
  unfold analyze_with_ollama, try_catch, ollama_generate, ret. cbn [w_generate log].
  destruct (w_generate w) as [|[e|text] g]; eexists; (split; [reflexivity|]);
    intros e' g' H; inversion H; reflexivity.
Qed.

Lemma save_findings_returns slf analysis directory w :
  exists header,
    save_findings slf analysis directory w
    = (Return (joinpath (findings_dir slf) "agent-network-analysis.md"),
       log (Wrote (joinpath (findings_dir slf) "agent-network-analysis.md"))
           (set_files ((joinpath (findings_dir slf) "agent-network-analysis.md",
                        header ++ analysis) :: w_files w) w)).
Proof.
  exists ("# Multi-Agent Network Analysis" ++ PyStr.nl ++ PyStr.nl
          ++ "**Analyzed Directory**: " ++ to_string (absolute (w_fs w) directory) ++ PyStr.nl
          ++ "**Analysis Model**: " ++ model slf ++ PyStr.nl
          ++ "**Generated**: " ++ to_string (cwd (w_fs w)) ++ PyStr.nl ++ PyStr.nl
          ++ "---" ++ PyStr.nl ++ PyStr.nl).
  unfold save_findings, bind, get, write_file, modify, ret. cbn [fst snd].
  do 5 f_equal.
  rewrite !concat_cons, concat_nil, str_app_nil_r, !str_app_assoc. reflexivity.
Qed.

(** X10: where nothing stands in the way of its [mkdir] calls (the working
    directory has no [findings] entry yet), [generate_system_prompts] of the
    batch script returns normally whatever the backend does: it makes one
    backend call, reads no input, only adds files, and writes nothing when
    the backend fails. *)
Theorem generate_system_prompts_never_fails
        (model : string) (analysis : string) (w : World) :
  fresh_findings (w_fs w) (findings_dir (init model)) = true ->
  let r := generate_system_prompts (init model) analysis w in
  fst r = Return tt
  /\ w_stdin (snd r) = w_stdin w
  /\ w_generate (snd r) = tl (w_generate w)
  /\ (exists new, w_files (snd r) = (new ++ w_files w)%list)
  /\ ((forall text g, w_generate w <> inr text :: g) -> w_files (snd r) = w_files w).
Proof. intros _. exact (generate_system_prompts_contained (init model) analysis w). Qed.

Lemma generate_system_prompts_never_fails_witness :
  fst (generate_system_prompts (init "m") "analysis" Demo.offline) = Return tt
  /\ w_files (snd (generate_system_prompts (init "m") "analysis" Demo.offline)) = [].
Proof.
  pose proof (generate_system_prompts_never_fails "m" "analysis" Demo.offline eq_refl) as H.
  cbv zeta in H. destruct H as (H1 & _ & _ & _ & H5).
  split; [exact H1 | apply H5; intros text g; discriminate].
Defined.

(** [run] up to the point where the findings are on disk. *)
Lemma run_saves_findings slf directory generate_prompts w :
  Common.total_files (discover_agents (w_fs w) directory) <> 0 ->
  exists analysis header w2,
    run slf directory generate_prompts w
    = bind (if generate_prompts then ret true else offer_system_prompts)
           (fun wanted => if wanted then generate_system_prompts slf analysis else ret tt)
           w2
    /\ w_files w2
       = (joinpath (findings_dir slf) "agent-network-analysis.md", header ++ analysis)
           :: w_files w
    /\ w_stdin w2 = w_stdin w
    /\ w_generate w2 = tl (w_generate w)
    /\ (forall e g, w_generate w = inl e :: g ->
        analysis = "Error during analysis: " ++ exc_str e).
Proof.
  intros Htotal. apply Nat.eqb_neq in Htotal.
  destruct (build_context_on_discovered (w_fs w) directory) as [context Hctx].
  destruct (analyze_with_ollama_returns w) as (analysis & Ha & Herr).
  set (w1 := match w_generate w with
             | [] => log CalledGenerate w
             | _ :: g => set_generate g (log CalledGenerate w)
             end) in *.
  destruct (save_findings_returns slf analysis directory w1) as [header Hs].
  exists analysis, header. eexists. split; [|split; [|split; [|split]]].
  - unfold run. rewrite (bind_return _ _ _ w w) by reflexivity.
    unfold discover_agents in *. rewrite Htotal.
    rewrite (bind_return _ _ _ context w)
      by (unfold lift_outcome, build_context; rewrite Hctx; reflexivity).
    rewrite (bind_return _ _ _ analysis w1) by exact Ha.
    rewrite (bind_return _ _ _ _ _ Hs). reflexivity.
  - subst w1. destruct (w_generate w) eqn:E; cbn; rewrite ?E; reflexivity.
  - subst w1. destruct (w_generate w) eqn:E; cbn; rewrite ?E; reflexivity.
  - subst w1. destruct (w_generate w) eqn:E; cbn; rewrite ?E; reflexivity.
  - exact Herr.
Qed.

(** X11: with the prompts flag set, [run] of the batch script never reads
    the input, for every directory and every behaviour of the backend; and
    where nothing stands in the way of its writes (the working directory
    has no [findings] entry yet) it returns normally. *)
Theorem run_with_prompts_flag_is_unattended
        (model : string) (directory : Path) (w : World) :
  let r := run (init model) directory true w in
  w_stdin (snd r) = w_stdin w
  /\ (fresh_findings (w_fs w) (findings_dir (init model)) = true -> fst r = Return tt).
Proof.
  cbv zeta.
  destruct (Nat.eq_dec (Common.total_files (discover_agents (w_fs w) directory)) 0)
    as [Hzero|Htotal].
  - unfold run. rewrite (bind_return _ _ _ w w) by reflexivity.
    apply Nat.eqb_eq in Hzero. rewrite Hzero. split; [reflexivity | intros _; reflexivity].
  - destruct (run_saves_findings (init model) directory true w Htotal)
      as (analysis & header & w2 & Hrun & _ & Hin & _).
    rewrite Hrun. rewrite (bind_return _ _ _ true w2) by reflexivity.
    destruct (generate_system_prompts_contained (init model) analysis w2) as (H1 & H2 & _).
    split; [rewrite H2; exact Hin | intros _; exact H1].
Qed.

Lemma run_with_prompts_flag_is_unattended_witness :
  fst (run (init "m") Demo.directory true (Demo.world "analysis" ["1"])) = Return tt
  /\ w_stdin (snd (run (init "m") Demo.directory true (Demo.world "analysis" ["1"])))
     = ["1"].
Proof.
  pose proof (run_with_prompts_flag_is_unattended "m" Demo.directory
                (Demo.world "analysis" ["1"])) as H.
  cbv zeta in H. destruct H as [H1 H2]. split; [exact (H2 eq_refl) | exact H1].
Defined.



End BatchFacts.

(* ================================================================= *)
(** ** The two entry points *)

Module MainFacts.
Import PathLib.
Import Entry.
Import TextFacts.
Import ContextFacts.
Import ReviewFacts.
#[local] Open Scope string_scope.

Lemma is_dir_exists fs p : is_dir fs p = true -> exists_ fs p = true.
Proof. unfold is_dir, exists_. destruct (resolve fs p); [reflexivity | discriminate]. Qed.

(** X13: when the directory argument, written without [..], does not name
    a directory (it is missing, or a file), both [main]s leave with status 1
    before anything else happens: the backend is not contacted, nothing is
    read or written. *)
Theorem main_rejects_a_bad_directory
        (json_loads : string -> exc + list Agent)
        (directory model : string) (prompts : bool) (w : World) :
  ~ In ".." (parse_parts directory) ->
  is_dir (w_fs w) (absolute (w_fs w) (of_string directory)) = false ->
  Iterative.main json_loads (Iterative.MkArgs directory model) w = (SysExit 1, w)
  /\ Local.main (Local.MkArgs directory model prompts) w = (SysExit 1, w).
Proof.
  intros _ H.
  unfold Iterative.main, Local.main, bind, get, sys_exit.
  cbn [Iterative.arg_directory Local.arg_directory]. rewrite H.
  destruct (exists_ (w_fs w) (absolute (w_fs w) (of_string directory))); split; reflexivity.
Qed.

Lemma main_rejects_a_bad_directory_witness :
  Iterative.main Demo.json_loads (Iterative.MkArgs "system_prompt.md" "m")
                 (Demo.world Demo.good_reply [])
  = (SysExit 1, Demo.world Demo.good_reply []).
Proof.
  refine (proj1 (main_rejects_a_bad_directory Demo.json_loads "system_prompt.md" "m" false
                   (Demo.world Demo.good_reply []) _ eq_refl)).
  vm_compute. intros [H|[]]. discriminate H.
Defined.

Lemma ollama_list_stdin w : w_stdin (snd (ollama_list w)) = w_stdin w.
Proof. unfold ollama_list. cbn. destruct (w_list w) as [|[e|names] rest]; reflexivity. Qed.

Lemma iterative_main_unfold json_loads directory model w :
  is_dir (w_fs w) (absolute (w_fs w) (of_string directory)) = true ->
  Iterative.main json_loads (Iterative.MkArgs directory model) w
  = bind (model_check model)
         (fun _ w' =>
            let (r, st) :=
              Iterative.run_iterative json_loads (absolute (w_fs w) (of_string directory))
                (Iterative.MkState (Iterative.init model false) w') in
            (r, Iterative.world st)) w.
Proof.
  intros H. unfold Iterative.main. rewrite (bind_return _ _ _ w w) by reflexivity.
  cbn [Iterative.arg_directory Iterative.arg_model].
  rewrite H, (is_dir_exists _ _ H). cbn [negb].
  unfold model_check, bind.
  destruct (try_catch _ _ w) as [[[]|e|n|] w1]; reflexivity.
Qed.

Lemma local_main_unfold directory model prompts w :
  is_dir (w_fs w) (absolute (w_fs w) (of_string directory)) = true ->
  Local.main (Local.MkArgs directory model prompts) w
  = bind (model_check model)
         (fun _ => Local.run (Local.init model) (absolute (w_fs w) (of_string directory))
                             prompts) w.
Proof.
  intros H. unfold Local.main. rewrite (bind_return _ _ _ w w) by reflexivity.
  cbn [Local.arg_directory Local.arg_model Local.arg_prompts].
  rewrite H, (is_dir_exists _ _ H). cbn [negb].
  unfold model_check, bind.
  destruct (try_catch _ _ w) as [[[]|e|n|] w1]; reflexivity.
Qed.

(** The model is not installed and the answer is not [y]. *)
Lemma model_check_declined model w names1 names2 rest line lines :
  w_list w = inr names1 :: inr names2 :: rest ->
  existsb (fun name => PyStr.contains model name) names2 = false ->
  w_stdin w = line :: lines ->
  (PyStr.lower line =? "y") = false ->
  exists w',
    model_check model w = (SysExit 1, w')
    /\ w_files w' = w_files w /\ w_generate w' = w_generate w.
Proof.
  intros Hlist Hmiss Hin Hno.
  unfold model_check, bind, try_catch, ollama_list, input, ret, sys_exit.
  cbn [w_list log]. rewrite Hlist. cbn [w_list log set_list]. rewrite Hmiss.
  cbn [negb w_stdin set_list log]. rewrite Hin, Hno. cbn [negb].
  eexists. split; [reflexivity|]. split; reflexivity.
Qed.

(** X14: when the model is not among those the backend lists, any
    answer other than [y] or [Y] - [yes] included - makes both [main]s leave
    with status 1; no file is written and the backend is not asked to
    generate. *)
Theorem main_stops_unless_answer_is_y
        (json_loads : string -> exc + list Agent)
        (directory model : string) (prompts : bool) (w : World)
        (names1 names2 : list string) (rest : list (exc + list string))
        (line : string) (lines : list string) :
  is_dir (w_fs w) (absolute (w_fs w) (of_string directory)) = true ->
  w_list w = inr names1 :: inr names2 :: rest ->
  existsb (fun name => PyStr.contains model name) names2 = false ->
  w_stdin w = line :: lines ->
  (PyStr.lower line =? "y") = false ->
  let ri := Iterative.main json_loads (Iterative.MkArgs directory model) w in
  let rl := Local.main (Local.MkArgs directory model prompts) w in
  fst ri = SysExit 1 /\ fst rl = SysExit 1
  /\ w_files (snd ri) = w_files w /\ w_files (snd rl) = w_files w
  /\ w_generate (snd ri) = w_generate w /\ w_generate (snd rl) = w_generate w.
Proof.
  intros Hdir Hlist Hmiss Hin Hno. cbv zeta.
  destruct (model_check_declined model w names1 names2 rest line lines Hlist Hmiss Hin Hno)
    as (w' & Hcheck & Hf & Hg).
  rewrite (iterative_main_unfold _ _ _ _ Hdir), (local_main_unfold _ _ _ _ Hdir).
  unfold bind. rewrite Hcheck. cbn [fst snd]. repeat split; assumption.
Qed.

Lemma main_stops_unless_answer_is_y_witness :
  fst (Local.main (Local.MkArgs "." "llama3" true) (Demo.world Demo.good_reply ["yes"]))
  = SysExit 1.
Proof.
  exact (proj1 (proj2 (main_stops_unless_answer_is_y Demo.json_loads "." "llama3" true
                         (Demo.world Demo.good_reply ["yes"])
                         ["qwen2.5:14b-instruct-q5_K_M"] ["qwen2.5:14b-instruct-q5_K_M"] []
                         "yes" []
                         eq_refl eq_refl eq_refl eq_refl eq_refl))).
Defined.

(** The check lets the run go on when it cannot be made. *)
Lemma model_check_skipped model w names1 :
  fst (ollama_list w) = Return names1 ->
  (let w1 := snd (ollama_list w) in
   (exists e, fst (ollama_list w1) = Raise e)
   \/ (exists names2,
         fst (ollama_list w1) = Return names2
         /\ existsb (fun name => PyStr.contains model name) names2 = false
         /\ w_stdin w = [])) ->
  model_check model w = (Return tt, snd (ollama_list (snd (ollama_list w)))).
Proof.
  intros H1 H2. cbv zeta in H2.
  unfold model_check.
  rewrite (bind_return _ _ _ tt (snd (ollama_list w))).
  2:{ unfold try_catch, bind. destruct (ollama_list w) as [o w1]. cbn in H1. subst o.
      reflexivity. }
  pose proof (ollama_list_stdin w) as Hs1.
  pose proof (ollama_list_stdin (snd (ollama_list w))) as Hs2.
  unfold try_catch, bind.
  destruct (ollama_list (snd (ollama_list w))) as [o w2]. cbn [fst snd] in *.
  destruct H2 as [[e He]|(names2 & Hn & Hmiss & Hin)]; subst o; [reflexivity|].
  rewrite Hmiss. cbn [negb]. unfold input. rewrite Hs2, Hs1, Hin. reflexivity.
Qed.

(** X15: when the model cannot be checked - the second [ollama.list()]
    fails, or the model is not listed and the input is at its end - both
    [main]s go on with the run as if the check had passed: the exception is
    swallowed by the [except] clause. *)
Theorem main_goes_on_when_model_check_cannot_be_made
        (json_loads : string -> exc + list Agent)
        (directory model : string) (prompts : bool) (w : World)
        (names1 : list string) :
  is_dir (w_fs w) (absolute (w_fs w) (of_string directory)) = true ->
  fst (ollama_list w) = Return names1 ->
  (let w1 := snd (ollama_list w) in
   (exists e, fst (ollama_list w1) = Raise e)
   \/ (exists names2,
         fst (ollama_list w1) = Return names2
         /\ existsb (fun name => PyStr.contains model name) names2 = false
         /\ w_stdin w = [])) ->
  let w2 := snd (ollama_list (snd (ollama_list w))) in
  let dir := absolute (w_fs w) (of_string directory) in
  Local.main (Local.MkArgs directory model prompts) w
  = Local.run (Local.init model) dir prompts w2
  /\ fst (Iterative.main json_loads (Iterative.MkArgs directory model) w)
     = fst (Iterative.run_iterative json_loads dir
              (Iterative.MkState (Iterative.init model false) w2)).
Proof.
  intros Hdir H1 H2. cbv zeta.
  pose proof (model_check_skipped model w names1 H1 H2) as Hcheck.
  rewrite (iterative_main_unfold _ _ _ _ Hdir), (local_main_unfold _ _ _ _ Hdir).
  rewrite !(bind_return _ _ _ _ _ Hcheck). split; [reflexivity|].
  destruct (Iterative.run_iterative _ _ _) as [r st]. reflexivity.
Qed.

Lemma main_goes_on_when_model_check_cannot_be_made_witness :
  Local.main (Local.MkArgs "." "llama3" true) (Demo.world Demo.good_reply [])
  = Local.run (Local.init "llama3") Demo.directory true
              (snd (ollama_list (snd (ollama_list (Demo.world Demo.good_reply []))))).
Proof.
  exact (proj1 (main_goes_on_when_model_check_cannot_be_made Demo.json_loads "." "llama3" true
                  (Demo.world Demo.good_reply []) ["qwen2.5:14b-instruct-q5_K_M"]
                  eq_refl eq_refl
                  (or_intror (ex_intro _ ["qwen2.5:14b-instruct-q5_K_M"]
                                (conj eq_refl (conj eq_refl eq_refl)))))).
Defined.

End MainFacts.

(* ================================================================= *)
(** ** The offer of the batch script *)

Module OfferFacts.
Import PathLib.
Import Local.
Import ReviewFacts.
Import BatchFacts.
Import Entry.
#[local] Open Scope string_scope.

Lemma read_offer_skips junk : forall lines,
  Forall not_a_choice junk ->
  read_offer (junk ++ lines) = read_offer lines.
Proof.
  induction junk as [|l junk IH]; intros lines H; [reflexivity|].
  inversion H as [|? ? (H1 & H2 & H3) Hrest]; subst.
  cbn [app read_offer]. rewrite H1, H2, H3. cbn [orb]. apply IH. exact Hrest.
Qed.

(** X16: without the prompts flag, once the analysis is saved, the first
    line that strips to [2] or [3] - lines that are no choice are asked
    again - ends [run] of the batch script normally: the lines after it are
    left unread, the backend was called once, and the findings file is the
    only file written. *)
Theorem declining_the_offer_ends_the_batch_run
        (slf : Analyzer) (directory : Path) (w : World)
        (junk : list string) (line : string) (rest : list string) :
  Common.total_files (discover_agents (w_fs w) directory) <> 0 ->
  w_stdin w = (junk ++ line :: rest)%list ->
  Forall not_a_choice junk ->
  PyStr.strip line = "2" \/ PyStr.strip line = "3" ->
  let r := run slf directory false w in
  fst r = Return tt
  /\ w_stdin (snd r) = rest
  /\ w_generate (snd r) = tl (w_generate w)
  /\ exists text,
       w_files (snd r)
       = (joinpath (findings_dir slf) "agent-network-analysis.md", text) :: w_files w.
Proof.
  intros Htotal Hin Hjunk Hline. cbv zeta.
  destruct (run_saves_findings slf directory false w Htotal)
    as (analysis & header & w2 & Hrun & Hfiles & Hstdin & Hgen & _).
  rewrite Hrun. unfold bind, offer_system_prompts.
  rewrite Hstdin, Hin, (read_offer_skips junk _ Hjunk). cbn [read_offer].
  assert (Hchoice : (if PyStr.strip line =? "1" then (Return true, rest)
                     else if (PyStr.strip line =? "2") || (PyStr.strip line =? "3")
                          then (Return false, rest) else read_offer rest)
                    = (Return false, rest)).
  { destruct Hline as [-> | ->]; reflexivity. }
  rewrite Hchoice. cbn.
  split; [reflexivity|]. split; [reflexivity|]. split; [exact Hgen|].
  exists (header ++ analysis). exact Hfiles.
Qed.

Lemma declining_the_offer_ends_the_batch_run_witness :
  fst (run (init "m") Demo.directory false (Demo.world "analysis" ["maybe"; " 2 "; "1"]))
  = Return tt
  /\ w_stdin (snd (run (init "m") Demo.directory false
                       (Demo.world "analysis" ["maybe"; " 2 "; "1"]))) = ["1"].
Proof.
  pose proof (declining_the_offer_ends_the_batch_run (init "m") Demo.directory
                (Demo.world "analysis" ["maybe"; " 2 "; "1"]) ["maybe"] " 2 " ["1"]
                ltac:(vm_compute; discriminate) eq_refl
                ltac:(repeat constructor) ltac:(left; reflexivity)) as H.
  cbv zeta in H. destruct H as (H1 & H2 & _). split; [exact H1 | exact H2].
Defined.




End OfferFacts.
